(** * Ottr: connection state machine and message pipeline

    A shallow embedding of the TypeScript client of the Ottr messaging app:

    - [src/services/supabase/connectionService.ts]  (module [ConnectionService])
    - [src/store/connectionStore.ts]                (module [ConnectionStore])
    - [src/services/supabase/messageService.ts]     (module [MessageService])
    - the message store (zustand)                   (module [MessageStore])
    - the settings screen's [confirmDisconnect]     (module [SettingsScreen])
    - [getMessageHistory] of the message service    (module [MessageHistory])
    - retry, drafts and queue of the message store  (module [MessageStoreActions])
    - [checkUsernameAvailability] of the user service (module [UserService])
    - [src/screens/main/SearchScreen.tsx]           (module [SearchScreen])
    - [supabase/migrations/001..003]                (module [Backend])

    Conventions of the embedding.

    - The backing store is a record of three tables, each a finite map from
      the primary key to the row.  Table constraints of the migrations
      (primary key, UNIQUE, CHECK, foreign keys) are checked on insert.  The
      row-level policies of migration 004 depend on the session identity
      [auth.uid()], which is no input of the service functions; the
      functions are run with access to the rows they name.  A call reaches
      the store, except an insert of a message, whose outcome the store
      state scripts (success with the key of the new row, or failure).
    - An [async] function is a function on the explicit state; where a claim
      is about what is visible at an [await], the function is cut there into
      the part before and the part after the suspension.
    - A timestamp ([new Date().toISOString()], [Date.now()]) is the instant it
      denotes, in milliseconds since the epoch; every clock reading is an
      explicit argument.
    - A JavaScript string is a [string] whose characters stand for its code
      units.
    - The id columns have the type UUID (migrations 001 to 003) and a row is
      filed under the text of its id.  An id the client makes up itself
      enters the store in one place, the lookup of the two users in
      [sendConnectionRequest], to which the connection store passes the
      empty string when it has no connected user: that lookup checks the
      text against the input syntax of the type ([Backend.is_uuid]) and is
      refused when it does not fit.  The other queries are made with ids
      taken from rows or drawn by the store. *)

From stdpp Require Import gmap strings list fin_maps pretty sorting.
From Stdlib Require Import Ascii.

(* ===================================================================== *)
(** * Constants ([src/constants/config.ts])                               *)
(* ===================================================================== *)

Module CONNECTION_STATES.
Inductive t := DISCONNECTED | PENDING | CONNECTED.
#[global] Instance eq_dec : EqDecision t.
Proof. solve_decision. Defined.
End CONNECTION_STATES.

Module REQUEST_STATES.
Inductive t := PENDING | ACCEPTED | REJECTED.
#[global] Instance eq_dec : EqDecision t.
Proof. solve_decision. Defined.
End REQUEST_STATES.

(* ===================================================================== *)
(** * Rows ([src/types/database.ts])                                      *)
(* ===================================================================== *)

(** The columns [expo_push_token], [created_at] and [updated_at] of [users]
    and the timestamps of [connection_requests] are written by the store
    only and read by none of the functions below; they are left out. *)

Module User.
Record t := mk {
  id : string;
  username : string;
  email : string;
  display_name : string;
  connection_status : CONNECTION_STATES.t;
  connected_to : option string;
}.
#[global] Instance eq_dec : EqDecision t.
Proof. solve_decision. Defined.

(** [{ ...u, connection_status: s, connected_to: c }] *)
Definition set_connection (s : CONNECTION_STATES.t) (c : option string) (u : t) : t :=
  mk (id u) (username u) (email u) (display_name u) s c.

(** [{ ...u, connection_status: s }] *)
Definition set_status (s : CONNECTION_STATES.t) (u : t) : t :=
  mk (id u) (username u) (email u) (display_name u) s (connected_to u).
End User.

Module ConnectionRequest.
Record t := mk {
  id : string;
  from_user : string;
  to_user : string;
  status : REQUEST_STATES.t;
}.
#[global] Instance eq_dec : EqDecision t.
Proof. solve_decision. Defined.

Definition set_status (s : REQUEST_STATES.t) (r : t) : t :=
  mk (id r) (from_user r) (to_user r) s.
End ConnectionRequest.

Module Message.
Record t := mk {
  id : string;
  from_user : string;
  to_user : string;
  content : string;
  read_at : option N;
  created_at : N;
}.
#[global] Instance eq_dec : EqDecision t.
Proof. solve_decision. Defined.

(** [{ ...m, read_at: r }] *)
Definition set_read_at (r : option N) (m : t) : t :=
  mk (id m) (from_user m) (to_user m) (content m) r (created_at m).
End Message.

(* ===================================================================== *)
(** * Errors                                                              *)
(* ===================================================================== *)

(** The error objects the store's client hands back. *)
Inductive StoreError :=
  | not_single_row            (* [.single()] matched no row, or several *)
  | unique_violation (constraint : string)
  | check_violation (constraint : string)
  | foreign_key_violation (constraint : string)
  | invalid_uuid (text : string)  (* "invalid input syntax for type uuid" *)
  | request_failed.           (* the request did not reach the store *)

#[global] Instance StoreError_eq_dec : EqDecision StoreError.
Proof. solve_decision. Defined.

(** The [error: string] of a service result: either [error.message] of a
    store error, or a string literal of the client code. *)
Inductive ErrorMessage :=
  | store_message (e : StoreError)
  | literal (s : string).

#[global] Instance ErrorMessage_eq_dec : EqDecision ErrorMessage.
Proof. solve_decision. Defined.

(** [{ success: boolean; error: string | null }] *)
Module ServiceResult.
Record t := mk {
  success : bool;
  error : option ErrorMessage;
}.
#[global] Instance eq_dec : EqDecision t.
Proof. solve_decision. Defined.
End ServiceResult.

(* ===================================================================== *)
(** * The backing store                                                   *)
(* ===================================================================== *)

Module Backend.

Record t := mk {
  users : gmap string User.t;
  connection_requests : gmap string ConnectionRequest.t;
  messages : gmap string Message.t;
  (** What the store answers to the message inserts still to come, in order:
      [Some id] stores the row under the key [id], [None] is a failed
      request.  An exhausted list is an unreachable store. *)
  insert_replies : list (option string);
}.

Definition with_users (f : gmap string User.t → gmap string User.t) (db : t) : t :=
  mk (f (users db)) (connection_requests db) (messages db) (insert_replies db).

Definition with_requests
    (f : gmap string ConnectionRequest.t → gmap string ConnectionRequest.t) (db : t) : t :=
  mk (users db) (f (connection_requests db)) (messages db) (insert_replies db).

Definition with_messages (f : gmap string Message.t → gmap string Message.t) (db : t) : t :=
  mk (users db) (connection_requests db) (f (messages db)) (insert_replies db).

(** The texts the column type UUID accepts: sixteen bytes of two
    hexadecimal digits each, in either case, with an optional hyphen after
    any pair of bytes but the last, the whole optionally in braces. *)
Definition is_hex (c : ascii) : bool :=
  let n := nat_of_ascii c in
  ((48 <=? n) && (n <=? 57)) || ((65 <=? n) && (n <=? 70)) || ((97 <=? n) && (n <=? 102)).

(** [uuid_bytes todo i s]: [todo] bytes are still to be read from [s], the
    next one being the byte of index [i]; what is left of [s] after them. *)
Fixpoint uuid_bytes (todo i : nat) (s : string) : option string :=
  match todo with
  | 0 => Some s
  | S todo' =>
      match s with
      | String c1 (String c2 rest) =>
          if is_hex c1 && is_hex c2 then
            uuid_bytes todo' (S i)
              match rest with
              | String "-" rest' => if Nat.odd i && (i <? 15) then rest' else rest
              | _ => rest
              end
          else None
      | _ => None
      end
  end.

Definition is_uuid (s : string) : bool :=
  match s with
  | String "{" body => bool_decide (uuid_bytes 16 0 body = Some "}")
  | _ => bool_decide (uuid_bytes 16 0 s = Some "")
  end.

(** [from('users').select(..).in('id', ids)]: the rows whose key is listed.
    The store compares the column [id] with each listed text and refuses the
    query when one of them is not a UUID. *)
Definition select_users_in (ids : list string) (db : t) : StoreError + list User.t :=
  match find (λ k, negb (is_uuid k)) ids with
  | Some k => inl (invalid_uuid k)
  | None => inr (omap (λ k, users db !! k) (remove_dups ids))
  end.

(** [from('connection_requests').select('*')] with a row filter. *)
Definition select_requests (p : ConnectionRequest.t → bool) (db : t)
    : list ConnectionRequest.t :=
  filter (λ r, p r = true) (map_to_list (connection_requests db)).*2.

(** [{ data, error }], the response to a query for one row. *)
Definition Response (A : Type) : Type := option A * option StoreError.

(** [.single()]: the row when exactly one matched, an error object and no
    data otherwise. *)
Definition single {A} (rows : list A) : Response A :=
  match rows with
  | [r] => (Some r, None)
  | _ => (None, Some not_single_row)
  end.

(** [from('connection_requests').select('*').eq('id', k).eq('status', s).single()] *)
Definition select_request_single (k : string) (s : REQUEST_STATES.t) (db : t)
    : Response ConnectionRequest.t :=
  single (filter (λ r, ConnectionRequest.status r = s)
                 (option_list (connection_requests db !! k))).

(** [from('users').select('id, connected_to').eq('id', k).eq('connection_status', s).single()] *)
Definition select_user_single (k : string) (s : CONNECTION_STATES.t) (db : t)
    : Response User.t :=
  single (filter (λ u, User.connection_status u = s)
                 (option_list (users db !! k))).

(** [from('users').update(..).eq('id', k)], no error when no row matches. *)
Definition update_user (f : User.t → User.t) (k : string) (db : t) : t :=
  with_users (alter f k) db.

(** [from('connection_requests').update(..).eq('id', k)] *)
Definition update_request (f : ConnectionRequest.t → ConnectionRequest.t)
    (k : string) (db : t) : t :=
  with_requests (alter f k) db.

(** [from('messages').update(..).eq('id', k)] *)
Definition update_message (f : Message.t → Message.t) (k : string) (db : t) : t :=
  with_messages (alter f k) db.

(** [from('messages').update(..)] on the rows a filter selects. *)
Definition update_messages_where (p : Message.t → bool) (f : Message.t → Message.t)
    (db : t) : t :=
  with_messages (fmap (λ m, if p m then f m else m)) db.

(** Is there a request row from [a] to [b], whatever its status? *)
Definition has_request_from_to (a b : string) (db : t) : bool :=
  bool_decide (select_requests
     (λ r, bool_decide (ConnectionRequest.from_user r = a)
           && bool_decide (ConnectionRequest.to_user r = b)) db ≠ []).

(** [from('connection_requests').insert({from_user, to_user, status})] under
    migration 002: [new_id] is the key [gen_random_uuid()] draws for the row;
    the constraints are the table's. *)
Definition insert_request (new_id a b : string) (s : REQUEST_STATES.t) (db : t)
    : StoreError + t :=
  if bool_decide (is_Some (connection_requests db !! new_id))
  then inl (unique_violation "connection_requests_pkey")
  else if bool_decide (is_Some (users db !! a) ∧ is_Some (users db !! b)) then
    if bool_decide (a = b) then inl (check_violation "no_self_connection")
    else if has_request_from_to a b db
    then inl (unique_violation "unique_connection_request")
    else inr (with_requests (insert new_id (ConnectionRequest.mk new_id a b s)) db)
  else inl (foreign_key_violation "connection_requests_user_fkey").

(** [from('messages').insert(row).select().single()] under migration 003.
    The store consumes its next reply. *)
Definition insert_message (a b content : string) (created : N) (db : t)
    : t * (StoreError + Message.t) :=
  match insert_replies db with
  | [] => (db, inl request_failed)
  | None :: rest =>
      (mk (users db) (connection_requests db) (messages db) rest, inl request_failed)
  | Some k :: rest =>
      let db' := mk (users db) (connection_requests db) (messages db) rest in
      if bool_decide (is_Some (messages db !! k))
      then (db', inl (unique_violation "messages_pkey"))
      else if bool_decide (is_Some (users db !! a) ∧ is_Some (users db !! b)) then
        if bool_decide (a = b) then (db', inl (check_violation "no_self_messaging"))
        else
          let row := Message.mk k a b content None created in
          (with_messages (insert k row) db', inr row)
      else (db', inl (foreign_key_violation "messages_user_fkey"))
  end.

End Backend.

(* ===================================================================== *)
(** * Connection service ([connectionService.ts])                         *)
(* ===================================================================== *)

Module ConnectionService.
Import Backend.

(** The body of a [try] block that runs against the store: it ends with the
    new store, or throws. *)
Definition Tx := Backend.t → ErrorMessage + Backend.t.

(** Modelled from the spec: the store procedures [begin_transaction],
    [commit_transaction] and [rollback_transaction] called through
    [supabase.rpc] are defined in no migration.  Section 4.1 of the
    specification states their contract: either all state changes of the
    operation apply, or none do.  The [catch] block turns what was thrown
    into the result. *)
Definition transaction (body : Tx) (db : Backend.t) : ServiceResult.t * Backend.t :=
  match body db with
  | inr db' => (ServiceResult.mk true None, db')
  | inl e => (ServiceResult.mk false (Some e), db)
  end.

(** [if (e) throw new Error(e.message)] for the error object of a store call. *)
Definition or_throw {A} (r : StoreError + A) (k : A → ErrorMessage + Backend.t)
    : ErrorMessage + Backend.t :=
  match r with
  | inl e => inl (store_message e)
  | inr a => k a
  end.

(** [const { data, error } = await ...single(); if (error) throw new
    Error(error.message); if (!data) throw new Error(missing)] *)
Definition found_or_throw {A} (r : Response A) (missing : string)
    (k : A → ErrorMessage + Backend.t) : ErrorMessage + Backend.t :=
  match r with
  | (_, Some e) => inl (store_message e)
  | (None, None) => inl (literal missing)
  | (Some a, None) => k a
  end.

Definition user_id_is (k : string) (u : User.t) : bool := bool_decide (User.id u = k).

(** The filter [.or(from_user.eq.a,from_user.eq.b).or(to_user.eq.b,to_user.eq.a)
    .eq('status', 'pending')]: the three conditions are conjoined. *)
Definition pending_between (a b : string) (r : ConnectionRequest.t) : bool :=
  (bool_decide (ConnectionRequest.from_user r = a)
   || bool_decide (ConnectionRequest.from_user r = b))
  && (bool_decide (ConnectionRequest.to_user r = b)
      || bool_decide (ConnectionRequest.to_user r = a))
  && bool_decide (ConnectionRequest.status r = REQUEST_STATES.PENDING).

Definition sendConnectionRequest_body (new_id fromUserId toUserId : string) : Tx := λ db,
  (* 1. Validate both users are disconnected *)
  or_throw (select_users_in [fromUserId; toUserId] db) (λ users,
  if negb (length users =? 2)%nat then inl (literal "One or both users not found") else
  match find (user_id_is fromUserId) users, find (user_id_is toUserId) users with
  | Some fromUser, Some toUser =>
      if negb (bool_decide (User.connection_status fromUser = CONNECTION_STATES.DISCONNECTED))
      then inl (literal "You must be disconnected to send a connection request")
      else if negb (bool_decide (User.connection_status toUser = CONNECTION_STATES.DISCONNECTED))
      then inl (literal "You can only connect with disconnected users")
      else
        (* 2. Check if a request already exists between these users *)
        let existingRequests := select_requests (pending_between fromUserId toUserId) db in
        if (0 <? length existingRequests)%nat
        then inl (literal "A connection request already exists between these users")
        else
          (* 3. Create the connection request *)
          or_throw (insert_request new_id fromUserId toUserId REQUEST_STATES.PENDING db) (λ db,
          (* 4. Update both users' connection status to pending *)
          let db := update_user (User.set_status CONNECTION_STATES.PENDING) fromUserId db in
          let db := update_user (User.set_status CONNECTION_STATES.PENDING) toUserId db in
          inr db)
  | _, _ => inl (literal "One or both users not found")
  end).

(** [sendConnectionRequest(fromUserId, toUserId)]; [new_id] is the key the
    store draws for the new row. *)
Definition sendConnectionRequest (new_id fromUserId toUserId : string) :=
  transaction (sendConnectionRequest_body new_id fromUserId toUserId).

Definition acceptConnectionRequest_body (requestId : string) : Tx := λ db,
  (* 1. Get the request details *)
  found_or_throw (select_request_single requestId REQUEST_STATES.PENDING db)
    "Connection request not found or already processed" (λ request,
  (* 2. Update the request status *)
  let db := update_request (ConnectionRequest.set_status REQUEST_STATES.ACCEPTED) requestId db in
  (* 3. Update both users to connected status and set connected_to *)
  let db := update_user
    (User.set_connection CONNECTION_STATES.CONNECTED (Some (ConnectionRequest.to_user request)))
    (ConnectionRequest.from_user request) db in
  let db := update_user
    (User.set_connection CONNECTION_STATES.CONNECTED (Some (ConnectionRequest.from_user request)))
    (ConnectionRequest.to_user request) db in
  inr db).

Definition acceptConnectionRequest (requestId : string) :=
  transaction (acceptConnectionRequest_body requestId).

Definition rejectConnectionRequest_body (requestId : string) : Tx := λ db,
  (* 1. Get the request details *)
  found_or_throw (select_request_single requestId REQUEST_STATES.PENDING db)
    "Connection request not found or already processed" (λ request,
  (* 2. Update the request status *)
  let db := update_request (ConnectionRequest.set_status REQUEST_STATES.REJECTED) requestId db in
  (* 3. Update both users back to disconnected status *)
  let db := update_user (User.set_connection CONNECTION_STATES.DISCONNECTED None)
    (ConnectionRequest.from_user request) db in
  let db := update_user (User.set_connection CONNECTION_STATES.DISCONNECTED None)
    (ConnectionRequest.to_user request) db in
  inr db).

Definition rejectConnectionRequest (requestId : string) :=
  transaction (rejectConnectionRequest_body requestId).

Definition disconnectUsers_body (userId : string) : Tx := λ db,
  (* 1. Get the user and their connected partner *)
  found_or_throw (select_user_single userId CONNECTION_STATES.CONNECTED db)
    "User is not connected to anyone" (λ user,
  match User.connected_to user with
  | None => inl (literal "User is not connected to anyone")
  | Some connectedUserId =>
      if bool_decide (connectedUserId = "")
      then inl (literal "User is not connected to anyone")
      else
        (* 2. Update both users to disconnected status *)
        let db := update_user (User.set_connection CONNECTION_STATES.DISCONNECTED None)
          userId db in
        let db := update_user (User.set_connection CONNECTION_STATES.DISCONNECTED None)
          connectedUserId db in
        inr db
  end).

Definition disconnectUsers (userId : string) :=
  transaction (disconnectUsers_body userId).

(** [getConnectedUser(userId)]: the row of the peer of a connected user. *)
Definition getConnectedUser (userId : string) (db : Backend.t)
    : option User.t * option ErrorMessage :=
  match select_user_single userId CONNECTION_STATES.CONNECTED db with
  | (_, Some e) => (None, Some (store_message e))
  | (None, None) => (None, None)
  | (Some user, None) =>
      match User.connected_to user with
      | None => (None, None)
      | Some k =>
          if bool_decide (k = "") then (None, None) else
          match single (option_list (users db !! k)) with
          | (_, Some e) => (None, Some (store_message e))
          | (connectedUser, None) => (connectedUser, None)
          end
      end
  end.

(** [getConnectionRequests(userId)]: the requests the user sent or received,
    in any status.  The store orders them by [created_at], a column the
    model leaves out; the order of the list below is that of the table. *)
Definition getConnectionRequests (userId : string) (db : Backend.t)
    : option (list ConnectionRequest.t) * option ErrorMessage :=
  (Some (select_requests
           (λ r, bool_decide (ConnectionRequest.from_user r = userId)
                 || bool_decide (ConnectionRequest.to_user r = userId)) db),
   None).

End ConnectionService.

(* ===================================================================== *)
(** * Connection store ([connectionStore.ts])                             *)
(* ===================================================================== *)

(** [e || fallback] on an error string: [null] and the empty string are falsy. *)
Definition error_or (e : option ErrorMessage) (fallback : string) : ErrorMessage :=
  match e with
  | None | Some (literal "") => literal fallback
  | Some m => m
  end.

Module ConnectionStore.

Record t := mk {
  connectionStatus : option CONNECTION_STATES.t;
  connectedUser : option User.t;
  pendingRequests : list ConnectionRequest.t;
  isLoading : bool;
  error : option ErrorMessage;
}.

Definition initial : t := mk None None [] false None.

(** [get().connectedUser?.id || ''] *)
Definition connectedUser_id_or_empty (st : t) : string :=
  match connectedUser st with
  | Some u => User.id u
  | None => ""
  end.

(** [sendRequest(toUserId)].  The service catches every error itself, so
    the [catch] block of the action is never entered. *)
Definition sendRequest (new_id toUserId : string) (st : t) (db : Backend.t)
    : bool * t * Backend.t :=
  let st := mk (connectionStatus st) (connectedUser st) (pendingRequests st) true None in
  let '(r, db) :=
    ConnectionService.sendConnectionRequest new_id (connectedUser_id_or_empty st) toUserId db in
  let st := mk (connectionStatus st) (connectedUser st) (pendingRequests st) false (error st) in
  if negb (ServiceResult.success r)
  then (false,
        mk (connectionStatus st) (connectedUser st) (pendingRequests st) (isLoading st)
           (Some (error_or (ServiceResult.error r) "Failed to send connection request")),
        db)
  else (true,
        mk (Some CONNECTION_STATES.PENDING) (connectedUser st) (pendingRequests st)
           (isLoading st) (error st),
        db).

(** [disconnect(userId)] *)
Definition disconnect (userId : string) (st : t) (db : Backend.t)
    : bool * t * Backend.t :=
  let st := mk (connectionStatus st) (connectedUser st) (pendingRequests st) true None in
  let '(r, db) := ConnectionService.disconnectUsers userId db in
  let st := mk (connectionStatus st) (connectedUser st) (pendingRequests st) false (error st) in
  if negb (ServiceResult.success r)
  then (false,
        mk (connectionStatus st) (connectedUser st) (pendingRequests st) (isLoading st)
           (Some (error_or (ServiceResult.error r) "Failed to disconnect")),
        db)
  else (true,
        mk (Some CONNECTION_STATES.DISCONNECTED) None (pendingRequests st)
           (isLoading st) (error st),
        db).

(** [acceptRequest(requestId)]: the local state is left to the realtime
    subscription. *)
Definition acceptRequest (requestId : string) (st : t) (db : Backend.t)
    : bool * t * Backend.t :=
  let st := mk (connectionStatus st) (connectedUser st) (pendingRequests st) true None in
  let '(r, db) := ConnectionService.acceptConnectionRequest requestId db in
  let st := mk (connectionStatus st) (connectedUser st) (pendingRequests st) false (error st) in
  if negb (ServiceResult.success r)
  then (false,
        mk (connectionStatus st) (connectedUser st) (pendingRequests st) (isLoading st)
           (Some (error_or (ServiceResult.error r) "Failed to accept connection request")),
        db)
  else (true, st, db).

(** [getConnectionRequests(userId)] *)
Definition getConnectionRequests (userId : string) (st : t) (db : Backend.t) : t :=
  let st := mk (connectionStatus st) (connectedUser st) (pendingRequests st) true None in
  match ConnectionService.getConnectionRequests userId db with
  | (_, Some e) =>
      mk (connectionStatus st) (connectedUser st) (pendingRequests st) false (Some e)
  | (data, None) =>
      mk (connectionStatus st) (connectedUser st) (default [] data) false (error st)
  end.

(** [getConnectedUser(userId)]: the state is derived again from the store. *)
Definition getConnectedUser (userId : string) (st : t) (db : Backend.t) : t :=
  let st := mk (connectionStatus st) (connectedUser st) (pendingRequests st) true None in
  (* First get the user's connection status *)
  match Backend.single (option_list (Backend.users db !! userId)) with
  | (_, Some userError) =>
      mk (connectionStatus st) (connectedUser st) (pendingRequests st) false
         (Some (store_message userError))
  | (None, None) =>
      (* [userData.connection_status] throws; the [catch] block reports it *)
      mk (connectionStatus st) (connectedUser st) (pendingRequests st) false
         (Some (literal "Cannot read properties of null"))
  | (Some userData, None) =>
      let st := mk (Some (User.connection_status userData)) (connectedUser st)
                   (pendingRequests st) (isLoading st) (error st) in
      (* If connected, get the connected user *)
      if bool_decide (User.connection_status userData = CONNECTION_STATES.CONNECTED) then
        match ConnectionService.getConnectedUser userId db with
        | (_, Some e) =>
            mk (connectionStatus st) (connectedUser st) (pendingRequests st) false (Some e)
        | (data, None) =>
            mk (connectionStatus st) data (pendingRequests st) false (error st)
        end
      else mk (connectionStatus st) None (pendingRequests st) false (error st)
  end.

(** The callback of [setupRealtimeSubscription] for an update of the user's
    own row; [updatedUser] is [payload.new]. *)
Definition onUserUpdate (userId : string) (updatedUser : User.t) (st : t) (db : Backend.t)
    : t :=
  (* Update connection status *)
  let st := mk (Some (User.connection_status updatedUser)) (connectedUser st)
               (pendingRequests st) (isLoading st) (error st) in
  (* If connected, get the connected user *)
  if bool_decide (User.connection_status updatedUser = CONNECTION_STATES.CONNECTED)
     && match User.connected_to updatedUser with
        | Some k => negb (bool_decide (k = ""))
        | None => false
        end
  then mk (connectionStatus st) (ConnectionService.getConnectedUser userId db).1
          (pendingRequests st) (isLoading st) (error st)
  else mk (connectionStatus st) None (pendingRequests st) (isLoading st) (error st).

End ConnectionStore.

(* ===================================================================== *)
(** * Message service ([messageService.ts])                               *)
(* ===================================================================== *)

Module MessageService.
Import Backend.

(** White space of [String.prototype.trim] among the one-byte code units:
    TAB, LF, VT, FF, CR, SPACE and NBSP. *)
Definition is_space (c : ascii) : bool :=
  let n := nat_of_ascii c in
  ((9 <=? n) && (n <=? 13)) || (n =? 32) || (n =? 160).

Fixpoint trimStart (s : string) : string :=
  match s with
  | String c s' => if is_space c then trimStart s' else s
  | EmptyString => EmptyString
  end.

(** [s.trim()] *)
Definition trim (s : string) : string :=
  String.rev (trimStart (String.rev (trimStart s))).

(** [{ success: boolean; data?: Message; error?: string }] *)
Record SendResult := mkSend {
  send_success : bool;
  send_data : option Message.t;
  send_error : option ErrorMessage;
}.

(** [sendMessage(fromUserId, toUserId, content)], with the reading of the
    clock that becomes [created_at]. *)
Definition sendMessage (fromUserId toUserId content : string) (now : N) (db : Backend.t)
    : SendResult * Backend.t :=
  (* Validate input *)
  if bool_decide (trim content = "")
  then (mkSend false None (Some (literal "Message content cannot be empty")), db)
  else if (500 <? String.length content)%nat
  then (mkSend false None (Some (literal "Message is too long (max 500 characters)")), db)
  else
    (* Create the message *)
    match insert_message fromUserId toUserId (trim content) now db with
    | (db, inl e) => (mkSend false None (Some (store_message e)), db)
    | (db, inr data) => (mkSend true (Some data) None, db)
    end.

(** [markMessageAsRead(messageId)] *)
Definition markMessageAsRead (messageId : string) (now : N) (db : Backend.t)
    : ServiceResult.t * Backend.t :=
  (ServiceResult.mk true None, update_message (Message.set_read_at (Some now)) messageId db).

(** [markAllMessagesAsRead(fromUserId, toUserId)]: the update is filtered
    with [.is('read_at', null)]. *)
Definition markAllMessagesAsRead (fromUserId toUserId : string) (now : N) (db : Backend.t)
    : ServiceResult.t * Backend.t :=
  (ServiceResult.mk true None,
   update_messages_where
     (λ m, bool_decide (Message.from_user m = fromUserId)
           && bool_decide (Message.to_user m = toUserId)
           && bool_decide (Message.read_at m = None))
     (Message.set_read_at (Some now)) db).

(** ** The offline queue *)

Record QueueEntry := mkEntry {
  toUserId : string;
  content : string;
  createdAt : N;
}.

#[global] Instance QueueEntry_eq_dec : EqDecision QueueEntry.
Proof. solve_decision. Defined.

(** The value under the key ['ottr_offline_message_queue'] of the durable
    key-value store: [None] when the key is absent, else the list whose
    JSON text is stored. *)
Definition QueueStorage := option (list QueueEntry).

(** An array element is an object: a reference together with what it holds.
    [JSON.parse] allocates one object per element, here numbered in order. *)
Definition Obj : Type := nat * QueueEntry.

Definition JSON_parse (l : list QueueEntry) : list Obj := imap (λ i e, (i, e)) l.
Definition JSON_stringify (l : list Obj) : list QueueEntry := l.*2.

(** [getOfflineMessageQueue()] *)
Definition getOfflineMessageQueue (ls : QueueStorage) : list Obj :=
  match ls with
  | Some l => JSON_parse l
  | None => []
  end.

(** [addToOfflineQueue(toUserId, content)] *)
Definition addToOfflineQueue (toUserId content : string) (now : N) (ls : QueueStorage)
    : QueueStorage :=
  let queue := getOfflineMessageQueue ls in
  Some (JSON_stringify queue ++ [mkEntry toUserId content now]).

(** [queue.indexOf(x)]: strict equality of objects is equality of references. *)
Fixpoint indexOf_from (i : Z) (x : Obj) (queue : list Obj) : Z :=
  match queue with
  | [] => -1
  | y :: rest => if bool_decide (y.1 = x.1) then i else indexOf_from (i + 1) x rest
  end.

Definition indexOf (x : Obj) (queue : list Obj) : Z := indexOf_from 0 x queue.

(** [a.slice(start)], a negative [start] counting from the end. *)
Definition slice_from {A} (start : Z) (a : list A) : list A :=
  let len := Z.of_nat (length a) in
  let k := if (start <? 0)%Z then Z.max (len + start) 0 else Z.min start len in
  drop (Z.to_nat k) a.

(** One call of [sendMessage] made by the drain, and whether it succeeded. *)
Definition Attempt : Type := QueueEntry * bool.

(** The [for (const message of queue)] loop of [processOfflineQueue]:
    [todo] is what the iteration has still to visit, [i] the number of
    entries visited.  The third component lists the calls of [sendMessage]
    in the order they were made. *)
Fixpoint drain_loop (fromUserId : string) (clock : nat → N) (queue : list Obj)
    (i : nat) (todo : list Obj) (ls : QueueStorage) (db : Backend.t)
    : ServiceResult.t * QueueStorage * list Attempt * Backend.t :=
  match todo with
  | [] =>
      (* Clear the queue if all messages were sent successfully *)
      (ServiceResult.mk true None, None, [], db)
  | message :: todo' =>
      let '(r, db) :=
        sendMessage fromUserId (toUserId message.2) (content message.2) (clock i) db in
      if negb (send_success r) then
        let remainingQueue := slice_from (indexOf message queue) queue in
        (ServiceResult.mk false (Some (literal "Failed to process all offline messages")),
         Some (JSON_stringify remainingQueue), [(message.2, false)], db)
      else
        let '(res, ls', calls, db') :=
          drain_loop fromUserId clock queue (S i) todo' ls db in
        (res, ls', (message.2, true) :: calls, db')
  end.

(** [processOfflineQueue(fromUserId)]; [clock i] is the reading of the clock
    when the entry at index [i] is sent. *)
Definition processOfflineQueue (fromUserId : string) (clock : nat → N)
    (ls : QueueStorage) (db : Backend.t)
    : ServiceResult.t * QueueStorage * list Attempt * Backend.t :=
  let queue := getOfflineMessageQueue ls in
  if (length queue =? 0)%nat then (ServiceResult.mk true None, ls, [], db)
  else drain_loop fromUserId clock queue 0 queue ls db.

End MessageService.

(* ===================================================================== *)
(** * Message store (zustand store of the chat screen)                    *)
(* ===================================================================== *)

Module MessageStore.
Import MessageService.

Inductive LocalStatus := sending | sent | read | failed.

#[global] Instance LocalStatus_eq_dec : EqDecision LocalStatus.
Proof. solve_decision. Defined.

(** [interface LocalMessage extends Message { localStatus?: ... }] *)
Record LocalMessage := mkLocal {
  row : Message.t;
  localStatus : option LocalStatus;
}.

#[global] Instance LocalMessage_eq_dec : EqDecision LocalMessage.
Proof. solve_decision. Defined.

(** A [Message] of the service used as a [LocalMessage]. *)
Definition of_row (m : Message.t) : LocalMessage := mkLocal m None.

(** A value of the durable key-value store [AsyncStorage]: a plain string,
    or the JSON text of a list of messages. *)
Inductive StoredValue :=
  | stored_text (s : string)
  | stored_messages (l : list LocalMessage).

(** The durable local state of the device. *)
Record Device := mkDevice {
  asyncStorage : gmap string StoredValue;
  localStorage : QueueStorage;
}.

Record t := mk {
  messages : list LocalMessage;
  hasMoreMessages : bool;
  isLoadingMessages : bool;
  isLoadingMore : bool;
  isSendingMessage : bool;
  error : option ErrorMessage;
  currentPage : nat;
  messagesPerPage : nat;
  partnerIsTyping : bool;
  isTyping : bool;
  (** the armed timer, by its delay; [None] is [null] *)
  typingTimeout : option N;
  (** the realtime channels, by their names; [None] is [null] *)
  messageSubscription : option string;
  typingSubscription : option string;
  isOnline : bool;
  drafts : gmap string string;
  scrollPositions : gmap string Z;
}.

Definition initial : t :=
  mk [] true false false false None 0 20 false false None None None true ∅ ∅.

(** The partial updates [set({ ... })] used below. *)
Definition set_messages (ms : list LocalMessage) (s : t) : t :=
  mk ms (hasMoreMessages s) (isLoadingMessages s) (isLoadingMore s) (isSendingMessage s)
     (error s) (currentPage s) (messagesPerPage s) (partnerIsTyping s) (isTyping s)
     (typingTimeout s) (messageSubscription s) (typingSubscription s) (isOnline s)
     (drafts s) (scrollPositions s).

Definition set_sending (b : bool) (s : t) : t :=
  mk (messages s) (hasMoreMessages s) (isLoadingMessages s) (isLoadingMore s) b
     (error s) (currentPage s) (messagesPerPage s) (partnerIsTyping s) (isTyping s)
     (typingTimeout s) (messageSubscription s) (typingSubscription s) (isOnline s)
     (drafts s) (scrollPositions s).

Definition set_error (e : option ErrorMessage) (s : t) : t :=
  mk (messages s) (hasMoreMessages s) (isLoadingMessages s) (isLoadingMore s)
     (isSendingMessage s) e (currentPage s) (messagesPerPage s) (partnerIsTyping s)
     (isTyping s) (typingTimeout s) (messageSubscription s) (typingSubscription s)
     (isOnline s) (drafts s) (scrollPositions s).

Definition set_loadingMessages (b : bool) (s : t) : t :=
  mk (messages s) (hasMoreMessages s) b (isLoadingMore s) (isSendingMessage s)
     (error s) (currentPage s) (messagesPerPage s) (partnerIsTyping s) (isTyping s)
     (typingTimeout s) (messageSubscription s) (typingSubscription s) (isOnline s)
     (drafts s) (scrollPositions s).

Definition set_loadingMore (b : bool) (s : t) : t :=
  mk (messages s) (hasMoreMessages s) (isLoadingMessages s) b (isSendingMessage s)
     (error s) (currentPage s) (messagesPerPage s) (partnerIsTyping s) (isTyping s)
     (typingTimeout s) (messageSubscription s) (typingSubscription s) (isOnline s)
     (drafts s) (scrollPositions s).

Definition set_page (more : bool) (page : nat) (s : t) : t :=
  mk (messages s) more (isLoadingMessages s) (isLoadingMore s) (isSendingMessage s)
     (error s) page (messagesPerPage s) (partnerIsTyping s) (isTyping s)
     (typingTimeout s) (messageSubscription s) (typingSubscription s) (isOnline s)
     (drafts s) (scrollPositions s).

Definition set_typing (typing : bool) (timer : option N) (s : t) : t :=
  mk (messages s) (hasMoreMessages s) (isLoadingMessages s) (isLoadingMore s)
     (isSendingMessage s) (error s) (currentPage s) (messagesPerPage s)
     (partnerIsTyping s) typing timer (messageSubscription s) (typingSubscription s)
     (isOnline s) (drafts s) (scrollPositions s).

(** [a.slice(-n)]: the last [n] elements. *)
Definition slice_last {A} (n : nat) (a : list A) : list A :=
  slice_from (- Z.of_nat n) a.

(** The keys of [AsyncStorage]. *)
Definition messages_key (userId partnerId : string) : string :=
  "messages-" +:+ userId +:+ "-" +:+ partnerId.

(** [setTypingStatus(isTyping)].  The row it writes with [setTypingIndicator]
    lives in a table of no migration and the outcome of the call is
    discarded; only the store's own fields are kept. *)
Definition setTypingStatus (typing : bool) (user peer : option User.t) (s : t) : t :=
  match user, peer with
  | Some u, Some p =>
      if bool_decide (User.id u = "") || bool_decide (User.id p = "") || negb (isOnline s)
      then s
      else set_typing typing (if typing then Some 5000%N else None) s
  | _, _ => s
  end.

(** [msg.id === messageId ? { ...msg, read_at: now } : msg] *)
Definition read_mark (messageId : string) (now : N) (msg : LocalMessage) : LocalMessage :=
  if bool_decide (Message.id (row msg) = messageId)
  then mkLocal (Message.set_read_at (Some now) (row msg)) (localStatus msg)
  else msg.

(** [markAsRead(messageId)] *)
Definition markAsRead (messageId : string) (now : N) (s : t) (db : Backend.t)
    : t * Backend.t :=
  let '(_, db) := markMessageAsRead messageId now db in
  (* Update the message in state *)
  (set_messages (map (read_mark messageId now) (messages s)) s, db).

(** [markAllAsRead(fromUserId)] *)
Definition markAllAsRead (fromUserId : string) (now : N) (user : option User.t)
    (s : t) (db : Backend.t) : t * Backend.t :=
  match user with
  | None => (s, db)
  | Some u =>
      if bool_decide (User.id u = "") then (s, db) else
      let '(_, db) := markAllMessagesAsRead fromUserId (User.id u) now db in
      (* Update all messages from this user in state *)
      (set_messages
         (map (λ msg, if bool_decide (Message.from_user (row msg) = fromUserId)
                         && bool_decide (Message.read_at (row msg) = None)
                      then mkLocal (Message.set_read_at (Some now) (row msg)) (localStatus msg)
                      else msg)
              (messages s)) s,
       db)
  end.

(** [{ success: boolean; data?: Message[]; error?: string }], what
    [getMessageHistory] resolves to. *)
Record HistoryResult := mkHistory {
  history_success : bool;
  history_data : option (list Message.t);
  history_error : option ErrorMessage;
}.

(** The [set(state => ...)] of [loadMessages] and [loadMoreMessages]: the new
    window and the value written to the cache. *)
Definition trim_window (combined : list LocalMessage)
    : list LocalMessage * list LocalMessage :=
  let trimmed := slice_last 200 combined in (* limit to last 200 messages in memory *)
  (trimmed, slice_last 100 trimmed).      (* Cache recent 100 messages for quick restore *)

(** [loadMessages(userId, partnerId, refresh)]; [fetched] is what the awaited
    [getMessageHistory] resolves to, [now] the clock of [markAllAsRead]. *)
Definition loadMessages (userId partnerId : string) (refresh : bool)
    (fetched : HistoryResult) (now : N) (user : option User.t)
    (s : t) (dev : Device) (db : Backend.t) : t * Device * Backend.t :=
  let s := set_error None (set_loadingMessages true s) in
  match history_success fetched, history_data fetched with
  | true, Some data =>
      (* If refreshing, replace messages, otherwise append them *)
      let combined := if refresh then of_row <$> data else messages s ++ (of_row <$> data) in
      let '(trimmed, cached) := trim_window combined in
      let dev := mkDevice (<[messages_key userId partnerId := stored_messages cached]>
                             (asyncStorage dev)) (localStorage dev) in
      let s := set_loadingMessages false
                 (set_page (length data =? messagesPerPage s)%nat
                           (if refresh then 0 else currentPage s)
                           (set_messages trimmed s)) in
      (* Mark all unread messages from partner as read *)
      let unreadMessages :=
        filter (λ msg, Message.from_user msg = partnerId ∧ Message.read_at msg = None) data in
      if (0 <? length unreadMessages)%nat
      then let '(s, db) := markAllAsRead partnerId now user s db in (s, dev, db)
      else (s, dev, db)
  | _, _ =>
      (set_error (Some (error_or (history_error fetched) "Failed to load messages"))
                 (set_loadingMessages false s), dev, db)
  end.

(** [loadMoreMessages(userId, partnerId)] *)
Definition loadMoreMessages (userId partnerId : string) (fetched : HistoryResult)
    (s : t) (dev : Device) : t * Device :=
  (* Don't load more if we're already loading or there are no more messages *)
  if isLoadingMore s || negb (hasMoreMessages s) then (s, dev) else
  let s := set_loadingMore true s in
  let nextPage := S (currentPage s) in
  match history_success fetched, history_data fetched with
  | true, Some data =>
      let combined := messages s ++ (of_row <$> data) in
      let '(trimmed, cached) := trim_window combined in
      let dev := mkDevice (<[messages_key userId partnerId := stored_messages cached]>
                             (asyncStorage dev)) (localStorage dev) in
      (set_loadingMore false
         (set_page (length data =? messagesPerPage s)%nat nextPage (set_messages trimmed s)),
       dev)
  | _, _ =>
      (set_error (Some (error_or (history_error fetched) "Failed to load more messages"))
                 (set_loadingMore false s), dev)
  end.

(** The part of [initializeStore] that restores the cached messages. *)
Definition restoreCachedMessages (userId partnerId : string) (s : t) (dev : Device) : t :=
  match asyncStorage dev !! messages_key userId partnerId with
  | Some (stored_messages (m :: parsed)) => set_messages (m :: parsed) s
  | _ => s
  end.

(** The message [sendMessage] shows before the store has answered. *)
Definition optimisticMessage (id from_user to_user content : string) (created_at : N)
    : LocalMessage :=
  mkLocal (Message.mk id from_user to_user content None created_at) (Some sending).

(** [`temp-${Date.now()}`] and [`offline-${Date.now()}`] *)
Definition temp_id (now : N) : string := "temp-" +:+ pretty now.
Definition offline_id (now : N) : string := "offline-" +:+ pretty now.

(** The online branch of [sendMessage] from the computation of [tempId] up
    to the [await] of the service call: the optimistic message is put at the
    head of the window.  The result is [tempId] and the state the call is
    suspended in. *)
Definition sendMessage_optimistic (u p : User.t) (content : string) (clock : nat → N)
    (s : t) : string * t :=
  let tempId := temp_id (clock 0) in
  (tempId,
   set_messages
     (optimisticMessage tempId (User.id u) (User.id p) content (clock 1) :: messages s) s).

(** [{ ...msg, localStatus: 'failed' }] *)
Definition mark_failed (tempId : string) (msg : LocalMessage) : LocalMessage :=
  if bool_decide (Message.id (row msg) = tempId) then mkLocal (row msg) (Some failed) else msg.

(** [{ ...data, localStatus: 'sent' }] *)
Definition replace_sent (tempId : string) (data : Message.t) (msg : LocalMessage)
    : LocalMessage :=
  if bool_decide (Message.id (row msg) = tempId) then mkLocal data (Some sent) else msg.

(** The online branch of [sendMessage] after the [await]: [r] is what the
    service call resolved to, [s] the state at that moment. *)
Definition sendMessage_settle (tempId : string) (r : SendResult) (s : t) : t :=
  match send_success r, send_data r with
  | true, Some data =>
      (* Replace the optimistic message with the real one *)
      set_sending false (set_messages (map (replace_sent tempId data) (messages s)) s)
  | _, _ =>
      (* Mark optimistic message as failed *)
      let s := set_messages (map (mark_failed tempId) (messages s)) s in
      set_error (Some (error_or (send_error r) "Failed to send message"))
                (set_sending false s)
  end.

(** [sendMessage(content)], with no other action of the store running
    between its steps; [clock] gives the successive readings of the clock. *)
Definition sendMessage (content : string) (clock : nat → N)
    (user peer : option User.t) (s : t) (dev : Device) (db : Backend.t)
    : t * Device * Backend.t :=
  let s := set_error None (set_sending true s) in
  let not_found :=
    (set_error (Some (literal "User or connected user not found")) (set_sending false s),
     dev, db) in
  match user, peer with
  | Some u, Some p =>
      if bool_decide (User.id u = "") || bool_decide (User.id p = "") then not_found else
      (* Clear typing indicator when sending a message *)
      let s := setTypingStatus false user peer s in
      (* Check if we're online *)
      if negb (isOnline s) then
        (* Add to offline queue *)
        let ls := addToOfflineQueue (User.id p) content (clock 0) (localStorage dev) in
        (* Add optimistic message to state *)
        let optimistic :=
          optimisticMessage (offline_id (clock 1)) (User.id u) (User.id p) content (clock 2) in
        (set_sending false (set_messages (optimistic :: messages s) s),
         mkDevice (asyncStorage dev) ls, db)
      else
        (* Optimistically add the message with localStatus = 'sending' *)
        let '(tempId, s) := sendMessage_optimistic u p content clock s in
        (* Send the message *)
        let '(r, db) :=
          MessageService.sendMessage (User.id u) (User.id p) content (clock 2) db in
        (sendMessage_settle tempId r s, dev, db)
  | _, _ => not_found
  end.

(** [cleanupSubscriptions()] *)
Definition cleanupSubscriptions (s : t) : t :=
  mk (messages s) (hasMoreMessages s) (isLoadingMessages s) (isLoadingMore s)
     (isSendingMessage s) (error s) (currentPage s) (messagesPerPage s)
     (partnerIsTyping s) (isTyping s) None None None (isOnline s)
     (drafts s) (scrollPositions s).

(** [resetStore()] *)
Definition resetStore (s : t) : t :=
  (* Clean up subscriptions *)
  let s := cleanupSubscriptions s in
  (* Reset state *)
  mk [] true false false false None 0 (messagesPerPage s) false false
     (typingTimeout s) (messageSubscription s) (typingSubscription s) (isOnline s) ∅ ∅.

End MessageStore.

(* ===================================================================== *)
(** * Message history ([getMessageHistory] of [messageService.ts])         *)
(* ===================================================================== *)

Module MessageHistory.
Import MessageStore.

(** The filter [or(and(from_user.eq.u,to_user.eq.p),and(from_user.eq.p,
    to_user.eq.u))]. *)
Definition in_conversation (userId partnerId : string) (m : Message.t) : Prop :=
  (Message.from_user m = userId ∧ Message.to_user m = partnerId)
  ∨ (Message.from_user m = partnerId ∧ Message.to_user m = userId).

#[global] Instance in_conversation_dec u p m : Decision (in_conversation u p m).
Proof. unfold in_conversation. apply _. Defined.

(** [order('created_at', { ascending: false })]: [m1] may stand before [m2]. *)
Definition newer (m1 m2 : Message.t) : Prop :=
  (Message.created_at m2 ≤ Message.created_at m1)%N.

#[global] Instance newer_dec m1 m2 : Decision (newer m1 m2).
Proof. unfold newer. apply _. Defined.

(** The conversation as the store orders it, newest first.  Among rows of
    one [created_at] the store is free to choose; the order taken here is one
    of those it may return. *)
Definition conversation (userId partnerId : string) (db : Backend.t) : list Message.t :=
  merge_sort newer
    (filter (in_conversation userId partnerId) (map_to_list (Backend.messages db)).*2).

(** [getMessageHistory(userId, partnerId, offset, limit)], for a positive
    [limit]: [.range(offset, offset + limit - 1)]. *)
Definition getMessageHistory (userId partnerId : string) (offset limit : nat)
    (db : Backend.t) : HistoryResult :=
  mkHistory true (Some (take limit (drop offset (conversation userId partnerId db)))) None.

End MessageHistory.

(* ===================================================================== *)
(** * Message store: retry, offline queue, drafts, inbound messages       *)
(* ===================================================================== *)

Module MessageStoreActions.
Import MessageService MessageStore.

(** [retryFailedMessage(tempId)] *)
Definition retryFailedMessage (tempId : string) (clock : nat → N)
    (user peer : option User.t) (s : t) (dev : Device) (db : Backend.t)
    : t * Device * Backend.t :=
  match find (λ m, bool_decide (Message.id (row m) = tempId)) (messages s) with
  | None => (s, dev, db)
  | Some msg =>
      if negb (bool_decide (localStatus msg = Some failed)) then (s, dev, db) else
      (* Re-invoke sendMessage with same content *)
      let '(s, dev, db) := sendMessage (Message.content (row msg)) clock user peer s dev db in
      (* Remove the failed temp message *)
      (set_messages
         (filter (λ m, Message.id (row m) ≠ tempId) (messages s)) s,
       dev, db)
  end.

(** [processOfflineQueue()] of the store; the outcome of the service call is
    not looked at. *)
Definition processOfflineQueue (clock : nat → N) (user : option User.t)
    (dev : Device) (db : Backend.t) : Device * Backend.t :=
  match user with
  | None => (dev, db)
  | Some u =>
      if bool_decide (User.id u = "") then (dev, db) else
      let '(_, ls, _, db) :=
        MessageService.processOfflineQueue (User.id u) clock (localStorage dev) db in
      (mkDevice (asyncStorage dev) ls, db)
  end.

(** [`draft-${partnerId}`] *)
Definition draft_key (partnerId : string) : string := "draft-" +:+ partnerId.

Definition set_drafts (d : gmap string string) (s : t) : t :=
  mk (messages s) (hasMoreMessages s) (isLoadingMessages s) (isLoadingMore s)
     (isSendingMessage s) (error s) (currentPage s) (messagesPerPage s)
     (partnerIsTyping s) (isTyping s) (typingTimeout s) (messageSubscription s)
     (typingSubscription s) (isOnline s) d (scrollPositions s).

(** [setDraft(partnerId, draft)].  The object [drafts] is used as a map from
    partner ids, which are UUIDs, to texts. *)
Definition setDraft (partnerId draft : string) (s : t) (dev : Device) : t * Device :=
  (set_drafts (<[partnerId := draft]> (drafts s)) s,
   mkDevice (<[draft_key partnerId := stored_text draft]> (asyncStorage dev))
            (localStorage dev)).

(** [getDraft(partnerId)] *)
Definition getDraft (partnerId : string) (s : t) : string :=
  default "" (drafts s !! partnerId).

(** The part of [initializeStore] that restores the cached draft.  A list of
    messages is stored under a [messages-] key only, so what is found under a
    [draft-] key is a text. *)
Definition restoreDraft (partnerId : string) (s : t) (dev : Device) : t :=
  match asyncStorage dev !! draft_key partnerId with
  | Some (stored_text savedDraft) => set_drafts (<[partnerId := savedDraft]> (drafts s)) s
  | _ => s
  end.

(** The callback of [subscribeToMessages] in [initializeStore]: a row
    inserted for this user arrives. *)
Definition onNewMessage (partnerId : string) (newMessage : Message.t) (now : N)
    (s : t) (db : Backend.t) : t * Backend.t :=
  (* Add the new message to the state *)
  let s := set_messages (of_row newMessage :: messages s) s in
  (* If the message is from the partner, mark it as read *)
  if bool_decide (Message.from_user newMessage = partnerId)
  then markAsRead (Message.id newMessage) now s db
  else (s, db).

(** [loadMoreMessages(userId, partnerId)] together with the page it awaits:
    the page after the current one. *)
Definition loadMoreMessages_fetching (userId partnerId : string)
    (s : t) (dev : Device) (db : Backend.t) : t * Device :=
  let nextPage := S (currentPage s) in
  let offset := nextPage * messagesPerPage s in
  loadMoreMessages userId partnerId
    (MessageHistory.getMessageHistory userId partnerId offset (messagesPerPage s) db) s dev.

(** [loadMessages(userId, partnerId, refresh)] together with the page it
    awaits. *)
Definition loadMessages_fetching (userId partnerId : string) (refresh : bool) (now : N)
    (user : option User.t) (s : t) (dev : Device) (db : Backend.t)
    : t * Device * Backend.t :=
  let page := if refresh then 0 else currentPage s in
  let offset := page * messagesPerPage s in
  loadMessages userId partnerId refresh
    (MessageHistory.getMessageHistory userId partnerId offset (messagesPerPage s) db)
    now user s dev db.

End MessageStoreActions.

(* ===================================================================== *)
(** * The client and its settings screen                                  *)
(* ===================================================================== *)

(** The state of one signed-in client: the stores and the durable storage
    of the device. *)
Module App.
Record t := mk {
  user : option User.t;                 (* [useAuthStore().user] *)
  connection : ConnectionStore.t;
  messageStore : MessageStore.t;
  device : MessageStore.Device;
}.
End App.

Module SettingsScreen.

(** [confirmDisconnect()]; the screen is shown to a signed-in user, and
    without one [user!.id] throws before anything is done. *)
Definition confirmDisconnect (app : App.t) (db : Backend.t) : App.t * Backend.t :=
  match App.user app with
  | None => (app, db)
  | Some user =>
      let '(success, connection, db) :=
        ConnectionStore.disconnect (User.id user) (App.connection app) db in
      if success then
        (App.mk
           (* refresh connection information *)
           (Some (User.set_connection CONNECTION_STATES.DISCONNECTED None user))
           connection
           (MessageStore.resetStore (App.messageStore app))
           (App.device app),
         db)
      else (App.mk (App.user app) connection (App.messageStore app) (App.device app), db)
  end.

End SettingsScreen.

(* ===================================================================== *)
(** * Vocabulary of the specification                                     *)
(* ===================================================================== *)

(** A request is "between" two users when they are its two ends, in either
    direction. *)
Definition between (a b : string) (r : ConnectionRequest.t) : Prop :=
  (ConnectionRequest.from_user r = a ∧ ConnectionRequest.to_user r = b)
  ∨ (ConnectionRequest.from_user r = b ∧ ConnectionRequest.to_user r = a).

#[global] Instance between_dec a b r : Decision (between a b r).
Proof. unfold between. apply _. Defined.

(** The pending requests stored for the unordered pair. *)
Definition pending_requests_between (a b : string) (db : Backend.t)
    : list ConnectionRequest.t :=
  Backend.select_requests
    (λ r, bool_decide (between a b r)
          && bool_decide (ConnectionRequest.status r = REQUEST_STATES.PENDING)) db.

(** The constraint [no_self_connection CHECK (from_user != to_user)] of the
    requests table, as a property of its rows. *)
Definition no_self_connection (db : Backend.t) : Prop :=
  ∀ k r, Backend.connection_requests db !! k = Some r →
         ConnectionRequest.from_user r ≠ ConnectionRequest.to_user r.

(** The failures the specification calls [RequestNotFoundError]: what the
    lookup of the pending request (step 1 of accepting and of rejecting)
    throws. *)
Definition RequestNotFoundError (r : ServiceResult.t) : Prop :=
  ServiceResult.success r = false
  ∧ (ServiceResult.error r = Some (store_message not_single_row)
     ∨ ServiceResult.error r
        = Some (literal "Connection request not found or already processed")).

(** [NotConnectedError]: what the lookup of the connected user (step 1 of
    disconnecting) throws. *)
Definition NotConnectedError (r : ServiceResult.t) : Prop :=
  ServiceResult.success r = false
  ∧ (ServiceResult.error r = Some (store_message not_single_row)
     ∨ ServiceResult.error r = Some (literal "User is not connected to anyone")).



(* ===================================================================== *)
(** * The state the connection operations maintain                        *)
(* ===================================================================== *)

(** Two requests share a party. *)
Definition shares_party (r1 r2 : ConnectionRequest.t) : Prop :=
  ConnectionRequest.from_user r1 = ConnectionRequest.from_user r2
  ∨ ConnectionRequest.from_user r1 = ConnectionRequest.to_user r2
  ∨ ConnectionRequest.to_user r1 = ConnectionRequest.from_user r2
  ∨ ConnectionRequest.to_user r1 = ConnectionRequest.to_user r2.

(** A user is one end of a request. *)
Definition party (k : string) (r : ConnectionRequest.t) : Prop :=
  ConnectionRequest.from_user r = k ∨ ConnectionRequest.to_user r = k.

(** What the three connection states mean in a store: a row is filed under
    its own id; a user has a peer exactly when connected, and the peer points
    back; the two ends of a pending request are pending users; a pending user
    is an end of a pending request, and of one only. *)
Record coherent (db : Backend.t) : Prop := mkCoherent {
  row_ids : ∀ k u, Backend.users db !! k = Some u → User.id u = k;
  peer_iff_connected : ∀ k u, Backend.users db !! k = Some u →
    (User.connected_to u ≠ None ↔ User.connection_status u = CONNECTION_STATES.CONNECTED);
  peer_symmetric : ∀ k u j, Backend.users db !! k = Some u →
    User.connected_to u = Some j →
    ∃ v, Backend.users db !! j = Some v ∧ User.connected_to v = Some k;
  pending_parties : ∀ rk r k, Backend.connection_requests db !! rk = Some r →
    ConnectionRequest.status r = REQUEST_STATES.PENDING → party k r →
    ∃ u, Backend.users db !! k = Some u
         ∧ User.connection_status u = CONNECTION_STATES.PENDING;
  pending_has_request : ∀ k u, Backend.users db !! k = Some u →
    User.connection_status u = CONNECTION_STATES.PENDING →
    ∃ rk r, Backend.connection_requests db !! rk = Some r
            ∧ ConnectionRequest.status r = REQUEST_STATES.PENDING ∧ party k r;
  one_pending : ∀ rk1 r1 rk2 r2,
    Backend.connection_requests db !! rk1 = Some r1 →
    Backend.connection_requests db !! rk2 = Some r2 →
    ConnectionRequest.status r1 = REQUEST_STATES.PENDING →
    ConnectionRequest.status r2 = REQUEST_STATES.PENDING →
    shares_party r1 r2 → rk1 = rk2;
}.

#[global] Instance party_dec k r : Decision (party k r).
Proof. unfold party. apply _. Defined.

#[global] Instance shares_party_dec r1 r2 : Decision (shares_party r1 r2).
Proof. unfold shares_party. apply _. Defined.

(** A test for [coherent] that can be run on a given store. *)
Definition user_pending (db : Backend.t) (k : string) : bool :=
  match Backend.users db !! k with
  | Some u => bool_decide (User.connection_status u = CONNECTION_STATES.PENDING)
  | None => false
  end.

Definition coherent_user (db : Backend.t) (ku : string * User.t) : bool :=
  let '(k, u) := ku in
  bool_decide (User.id u = k)
  && bool_decide (User.connected_to u ≠ None
                  ↔ User.connection_status u = CONNECTION_STATES.CONNECTED)
  && match User.connected_to u with
     | None => true
     | Some j =>
         match Backend.users db !! j with
         | Some v => bool_decide (User.connected_to v = Some k)
         | None => false
         end
     end
  && (if bool_decide (User.connection_status u = CONNECTION_STATES.PENDING)
      then existsb (λ kr : string * ConnectionRequest.t,
                      bool_decide (ConnectionRequest.status kr.2 = REQUEST_STATES.PENDING)
                      && bool_decide (party k kr.2))
                   (map_to_list (Backend.connection_requests db))
      else true).

Definition coherent_request (db : Backend.t) (kr : string * ConnectionRequest.t) : bool :=
  if bool_decide (ConnectionRequest.status kr.2 = REQUEST_STATES.PENDING) then
    user_pending db (ConnectionRequest.from_user kr.2)
    && user_pending db (ConnectionRequest.to_user kr.2)
    && forallb (λ kr2 : string * ConnectionRequest.t,
                  if bool_decide (ConnectionRequest.status kr2.2 = REQUEST_STATES.PENDING
                                  ∧ shares_party kr.2 kr2.2)
                  then bool_decide (kr.1 = kr2.1) else true)
               (map_to_list (Backend.connection_requests db))
  else true.

Definition coherentb (db : Backend.t) : bool :=
  forallb (coherent_user db) (map_to_list (Backend.users db))
  && forallb (coherent_request db) (map_to_list (Backend.connection_requests db)).

(* ===================================================================== *)
(** * User service ([userService.ts])                                     *)
(* ===================================================================== *)

Module UserService.

(** [username.startsWith('@') ? username : `@${username}`] *)
Definition formatUsername (username : string) : string :=
  match username with
  | String "@" _ => username
  | _ => "@" +:+ username
  end.

(** [.maybeSingle()]: no data and no error when no row matched. *)
Definition maybeSingle {A} (rows : list A) : Backend.Response A :=
  match rows with
  | [] => (None, None)
  | [r] => (Some r, None)
  | _ => (None, Some not_single_row)
  end.

(** [{ available: boolean; error: string | null }] *)
Record Availability := mkAvailability {
  available : bool;
  availability_error : option ErrorMessage;
}.

(** [checkUsernameAvailability(username)] *)
Definition checkUsernameAvailability (username : string) (db : Backend.t) : Availability :=
  (* Format username to ensure it starts with @ *)
  let formattedUsername := formatUsername username in
  (* Check if username exists *)
  match maybeSingle (filter (λ u, User.username u = formattedUsername)
                            (map_to_list (Backend.users db)).*2) with
  | (_, Some e) => mkAvailability false (Some (store_message e))
  (* Username is available if no matching record was found *)
  | (Some _, None) => mkAvailability false None
  | (None, None) => mkAvailability true None
  end.

End UserService.

(* ===================================================================== *)
(** * Search screen ([SearchScreen.tsx])                                  *)
(* ===================================================================== *)

Module SearchScreen.

Inductive RequestDirection := incoming | outgoing.

(** [getPendingRequestStatus(otherUserId)]: [userId] is [user?.id], which
    equals no column when there is no user. *)
Definition getPendingRequestStatus (userId : option string)
    (pendingRequests : list ConnectionRequest.t) (otherUserId : string)
    : option RequestDirection :=
  if (length pendingRequests =? 0)%nat then None else
  match find (λ req,
                (bool_decide (Some (ConnectionRequest.from_user req) = userId)
                 && bool_decide (ConnectionRequest.to_user req = otherUserId))
                || (bool_decide (ConnectionRequest.from_user req = otherUserId)
                    && bool_decide (Some (ConnectionRequest.to_user req) = userId)))
             pendingRequests with
  | None => None
  | Some request =>
      Some (if bool_decide (Some (ConnectionRequest.from_user request) = userId)
            then outgoing else incoming)
  end.

End SearchScreen.

(** A string that does not start with white space. *)
Definition no_leading_space (s : string) : Prop :=
  match s with
  | String c _ => MessageService.is_space c = false
  | EmptyString => True
  end.

(* ===================================================================== *)
(** * Concrete runs                                                       *)
(* ===================================================================== *)

(** Two users, Alice and Bob, and the states the operations take them
    through. *)
Module Scenario.
Import MessageService MessageStore.

(** The ids of Alice and of Bob, and the keys the store draws for the first
    and the second connection request. *)
Definition alice_id : string := "a11ce000-0000-4000-8000-000000000001".
Definition bob_id : string := "b0b00000-0000-4000-8000-000000000002".
Definition request_id : string := "c0000000-0000-4000-8000-000000000001".
Definition request_id2 : string := "c0000000-0000-4000-8000-000000000002".

Definition alice : User.t :=
  User.mk alice_id "@alice" "alice@example.org" "Alice" CONNECTION_STATES.DISCONNECTED None.
Definition bob : User.t :=
  User.mk bob_id "@bob" "bob@example.org" "Bob" CONNECTION_STATES.DISCONNECTED None.

(** Both disconnected, no request stored. *)
Definition db0 : Backend.t :=
  Backend.mk (<[alice_id := alice]> (<[bob_id := bob]> ∅)) ∅ ∅ [].

(** Alice has asked Bob. *)
Definition db_requested : Backend.t :=
  (ConnectionService.sendConnectionRequest request_id alice_id bob_id db0).2.

Definition request_r1 : ConnectionRequest.t :=
  ConnectionRequest.mk request_id alice_id bob_id REQUEST_STATES.PENDING.

(** Bob has declined: both are disconnected again, the row is kept. *)
Definition db_rejected : Backend.t :=
  (ConnectionService.rejectConnectionRequest request_id db_requested).2.

(** Bob has accepted instead. *)
Definition db_connected : Backend.t :=
  (ConnectionService.acceptConnectionRequest request_id db_requested).2.

Definition alice_connected : User.t :=
  User.set_connection CONNECTION_STATES.CONNECTED (Some bob_id) alice.
Definition bob_connected : User.t :=
  User.set_connection CONNECTION_STATES.CONNECTED (Some alice_id) bob.

(** The store answers the next two inserts, then is unreachable. *)
Definition db_chat : Backend.t :=
  Backend.mk (Backend.users db_connected) (Backend.connection_requests db_connected)
             ∅ [Some "m1"; Some "m2"].

Definition device0 : Device := mkDevice ∅ None.

(** Readings of a clock that starts at 1000 and advances by one. *)
Definition clock (i : nat) : N := 1000 + N.of_nat i.

(** A text of 501 characters. *)
Definition overlong : string := String.concat "" (replicate 501 "a").

(** Alice's chat screen, online, with Bob as the connected user. *)
Definition chat_online : MessageStore.t := MessageStore.initial.
Definition chat_offline : MessageStore.t :=
  mk [] true false false false None 0 20 false false None None None false ∅ ∅.

(** A conversation of 220 messages from Alice to Bob, the [i]-th written at
    time [i]; the service returns it newest first, twenty a page. *)
Definition history_message (i : nat) : Message.t :=
  Message.mk ("m" +:+ pretty i) alice_id bob_id "hello" None (N.of_nat i).

Definition newest_first (oldest count : nat) : list Message.t :=
  history_message <$> reverse (seq oldest count).

Definition history_page (k : nat) : HistoryResult :=
  mkHistory true (Some (newest_first (201 - 20 * k) 20)) None.

(** [loadMessages(refresh = true)], then [loadMoreMessages] once per further
    page. *)
Definition first_page : MessageStore.t * Device :=
  (loadMessages alice_id bob_id true (history_page 0) 0 (Some alice_connected)
                MessageStore.initial device0 db_chat).1.

Definition load_more (k : nat) (sd : MessageStore.t * Device) : MessageStore.t * Device :=
  loadMoreMessages alice_id bob_id (history_page k) sd.1 sd.2.

Definition after_pages (n : nat) : MessageStore.t * Device :=
  foldl (λ sd k, load_more k sd) first_page (seq 1 n).

(** The client of Alice after the first page, in the chat with Bob. *)
Definition app_chatting : App.t :=
  App.mk (Some alice_connected)
         (ConnectionStore.mk (Some CONNECTION_STATES.CONNECTED) (Some bob_connected) [] false None)
         first_page.1 first_page.2.


(** The store with the 45 oldest of these messages. *)
Definition db_history : Backend.t :=
  Backend.mk (Backend.users db_connected) (Backend.connection_requests db_connected)
             (list_to_map ((λ m, (Message.id m, m)) <$> newest_first 1 45)) [].

(** Alice's window with the first page of that store. *)
Definition window_one_page : MessageStore.t :=
  set_messages (of_row <$> newest_first 26 20) MessageStore.initial.

(** Alice's window with one message that could not be sent. *)
Definition window_failed : MessageStore.t :=
  set_messages [mkLocal (Message.mk "temp-1000" alice_id bob_id "hello" None 1001) (Some failed)]
               MessageStore.initial.

End Scenario.

(* ===================================================================== *)
(** * The JavaScript primitives on small inputs                           *)
(* ===================================================================== *)

Example trim_both_ends : MessageService.trim "  hello world 	" = "hello world".
Proof. reflexivity. Qed.

Example trim_blank : MessageService.trim "   " = "".
Proof. reflexivity. Qed.

Example slice_negative : MessageService.slice_from (-2) [1; 2; 3] = [2; 3].
Proof. reflexivity. Qed.

Example slice_not_found : MessageService.slice_from (-1) [1; 2; 3] = [3].
Proof. reflexivity. Qed.

Example slice_past_the_end : MessageService.slice_from 5 [1; 2; 3] = [].
Proof. reflexivity. Qed.

Example slice_last_short : MessageStore.slice_last 200 [1; 2; 3] = [1; 2; 3].
Proof. reflexivity. Qed.

Example temp_id_format : MessageStore.temp_id 1730000000000 = "temp-1730000000000".
Proof. reflexivity. Qed.

(* ===================================================================== *)
(** * Properties of the connection service                                *)
(* ===================================================================== *)

Section ConnectionFacts.
Import Backend ConnectionService.

Lemma select_request_single_hit db k s R :
  connection_requests db !! k = Some R → ConnectionRequest.status R = s →
  select_request_single k s db = (Some R, None).
Proof.
  intros HR Hs. unfold select_request_single. rewrite HR. simpl.
  rewrite filter_cons_True by done. done.
Qed.

Lemma select_request_single_miss db k s :
  (∀ R, connection_requests db !! k = Some R → ConnectionRequest.status R ≠ s) →
  select_request_single k s db = (None, Some not_single_row).
Proof.
  intros H. unfold select_request_single.
  destruct (connection_requests db !! k) as [R|] eqn:HR; simpl; [|done].
  rewrite filter_cons_False by (by apply H). done.
Qed.

Lemma select_user_single_hit db k s u :
  users db !! k = Some u → User.connection_status u = s →
  select_user_single k s db = (Some u, None).
Proof.
  intros Hu Hs. unfold select_user_single. rewrite Hu. simpl.
  rewrite filter_cons_True by done. done.
Qed.

Lemma select_user_single_miss db k s :
  (∀ u, users db !! k = Some u → User.connection_status u ≠ s) →
  select_user_single k s db = (None, Some not_single_row).
Proof.
  intros H. unfold select_user_single.
  destruct (users db !! k) as [u|] eqn:Hu; simpl; [|done].
  rewrite filter_cons_False by (by apply H). done.
Qed.

(** The two updates of the users of a request, read back. *)
Lemma users_after_two_updates (f g : User.t → User.t) a b db ua ub :
  a ≠ b → users db !! a = Some ua → users db !! b = Some ub →
  let db' := update_user g b (update_user f a db) in
  users db' !! a = Some (f ua) ∧ users db' !! b = Some (g ub)
  ∧ (∀ c, c ≠ a → c ≠ b → users db' !! c = users db !! c).
Proof.
  intros Hab Ha Hb. simpl. repeat split.
  - rewrite lookup_alter_ne by done. rewrite lookup_alter_eq, Ha. done.
  - rewrite lookup_alter_eq. rewrite lookup_alter_ne by done. by rewrite Hb.
  - intros c Hca Hcb. by rewrite !lookup_alter_ne.
Qed.

End ConnectionFacts.

Section C1.
Import Backend ConnectionService.

(** C1.  Let [R] be a pending request from [a] to [b], two distinct users
    with a row each.  The first [acceptConnectionRequest] succeeds; after it
    the status of [R] is accepted, the status of both users is connected,
    the peer of [a] is [b] and the peer of [b] is [a], and no other row of
    the two tables has changed.  A second call for the same request fails at
    the lookup of the pending request ([RequestNotFoundError]) and leaves
    the store exactly as the first call left it. *)
Theorem acceptRequest_succeeds_exactly_once
    (db : Backend.t) (rid a b : string) (R : ConnectionRequest.t) (ua ub : User.t) :
  connection_requests db !! rid = Some R →
  ConnectionRequest.status R = REQUEST_STATES.PENDING →
  ConnectionRequest.from_user R = a →
  ConnectionRequest.to_user R = b →
  a ≠ b →
  users db !! a = Some ua →
  users db !! b = Some ub →
  let first := acceptConnectionRequest rid db in
  let second := acceptConnectionRequest rid first.2 in
  first.1 = ServiceResult.mk true None
  ∧ ConnectionRequest.status <$> connection_requests first.2 !! rid
    = Some REQUEST_STATES.ACCEPTED
  ∧ User.connection_status <$> users first.2 !! a = Some CONNECTION_STATES.CONNECTED
  ∧ User.connected_to <$> users first.2 !! a = Some (Some b)
  ∧ User.connection_status <$> users first.2 !! b = Some CONNECTION_STATES.CONNECTED
  ∧ User.connected_to <$> users first.2 !! b = Some (Some a)
  ∧ (∀ c, c ≠ a → c ≠ b → users first.2 !! c = users db !! c)
  ∧ (∀ k, k ≠ rid → connection_requests first.2 !! k = connection_requests db !! k)
  ∧ RequestNotFoundError second.1
  ∧ second.2 = first.2.
Proof.
  intros HR Hst Hfrom Hto Hab Ha Hb first second.
  assert (Hfirst : first =
    (ServiceResult.mk true None,
     update_user (User.set_connection CONNECTION_STATES.CONNECTED (Some a)) b
       (update_user (User.set_connection CONNECTION_STATES.CONNECTED (Some b)) a
          (update_request (ConnectionRequest.set_status REQUEST_STATES.ACCEPTED) rid db)))).
  { unfold first, acceptConnectionRequest, transaction, acceptConnectionRequest_body.
    rewrite (select_request_single_hit db rid _ R HR Hst). simpl.
    by rewrite Hfrom, Hto. }
  assert (Hreq : connection_requests first.2 !! rid
                 = Some (ConnectionRequest.set_status REQUEST_STATES.ACCEPTED R)).
  { rewrite Hfirst. simpl. by rewrite lookup_alter_eq, HR. }
  assert (Hsecond : second = (ServiceResult.mk false (Some (store_message not_single_row)), first.2)).
  { unfold second, acceptConnectionRequest, transaction, acceptConnectionRequest_body.
    rewrite select_request_single_miss; [done|].
    intros R' HR'. rewrite Hreq in HR'. by inversion HR'. }
  destruct (users_after_two_updates
              (User.set_connection CONNECTION_STATES.CONNECTED (Some b))
              (User.set_connection CONNECTION_STATES.CONNECTED (Some a)) a b
              (update_request (ConnectionRequest.set_status REQUEST_STATES.ACCEPTED) rid db)
              ua ub Hab Ha Hb) as (Hua & Hub & Hother).
  rewrite Hsecond, Hreq. rewrite Hfirst in *. cbn [fst snd] in *.
  rewrite Hua, Hub.
  split; [done|]. split; [done|]. split; [done|]. split; [done|]. split; [done|].
  split; [done|]. split; [exact Hother|]. split.
  - intros k Hk. simpl. by rewrite lookup_alter_ne.
  - split; [|done]. split; [done|]. by left.
Qed.
End C1.

Section C7.
Import Backend ConnectionService.

Lemma alter_reset_twice (f : User.t → User.t) (a b : string) (m : gmap string User.t) ua :
  (∀ u, f (f u) = f u) → m !! a = Some ua →
  alter f b (alter f a m) !! a = Some (f ua).
Proof.
  intros Hf Ha. destruct (decide (a = b)) as [->|Hab].
  - rewrite !lookup_alter_eq, Ha. simpl. by rewrite Hf.
  - rewrite lookup_alter_ne by done. by rewrite lookup_alter_eq, Ha.
Qed.

Lemma alter_reset_twice_r (f : User.t → User.t) (a b : string) (m : gmap string User.t) ub :
  (∀ u, f (f u) = f u) → m !! b = Some ub →
  alter f b (alter f a m) !! b = Some (f ub).
Proof.
  intros Hf Hb. destruct (decide (a = b)) as [->|Hab].
  - rewrite !lookup_alter_eq, Hb. simpl. by rewrite Hf.
  - rewrite lookup_alter_eq. rewrite lookup_alter_ne by done. by rewrite Hb.
Qed.

(** C7.  Let [R] be a stored request from [a] to [b].  [rejectConnectionRequest]
    takes the request id only, so its effect cannot depend on which party
    calls it.  When [R] is pending the call succeeds; after it the status of
    [R] is rejected, the status of both users is disconnected and neither
    has a peer.  When [R] is not pending the call fails at the lookup and
    changes nothing. *)
Theorem rejectRequest_resets_both_parties
    (db : Backend.t) (rid a b : string) (R : ConnectionRequest.t) (ua ub : User.t) :
  connection_requests db !! rid = Some R →
  ConnectionRequest.from_user R = a →
  ConnectionRequest.to_user R = b →
  users db !! a = Some ua →
  users db !! b = Some ub →
  let res := rejectConnectionRequest rid db in
  if decide (ConnectionRequest.status R = REQUEST_STATES.PENDING) then
    res.1 = ServiceResult.mk true None
    ∧ ConnectionRequest.status <$> connection_requests res.2 !! rid
      = Some REQUEST_STATES.REJECTED
    ∧ User.connection_status <$> users res.2 !! a = Some CONNECTION_STATES.DISCONNECTED
    ∧ User.connected_to <$> users res.2 !! a = Some None
    ∧ User.connection_status <$> users res.2 !! b = Some CONNECTION_STATES.DISCONNECTED
    ∧ User.connected_to <$> users res.2 !! b = Some None
  else
    RequestNotFoundError res.1 ∧ res.2 = db.
Proof.
  intros HR Hfrom Hto Ha Hb res.
  unfold res, rejectConnectionRequest, transaction, rejectConnectionRequest_body.
  destruct (decide _) as [Hp|Hp].
  - rewrite (select_request_single_hit db rid _ R HR Hp). cbn [found_or_throw fst snd].
    rewrite Hfrom, Hto. cbn [users connection_requests update_user update_request
                              with_users with_requests].
    rewrite lookup_alter_eq, HR.
    rewrite (alter_reset_twice _ a b _ ua) by done.
    rewrite (alter_reset_twice_r _ a b _ ub) by done.
    done.
  - rewrite select_request_single_miss.
    + simpl. split; [|done]. split; [done|]. by left.
    + intros R' HR'. rewrite HR in HR'. by inversion HR'; subst.
Qed.
End C7.

Section C2.
Import Backend ConnectionService.

Lemma elem_of_select_requests p db r :
  r ∈ select_requests p db ↔ p r = true ∧ ∃ k, connection_requests db !! k = Some r.
Proof.
  unfold select_requests. rewrite list_elem_of_filter, list_elem_of_fmap.
  split.
  - intros [Hp [[k r'] [-> Hin]]]. apply elem_of_map_to_list in Hin. eauto.
  - intros [Hp [k Hk]]. split; [done|]. exists (k, r). split; [done|].
    by apply elem_of_map_to_list.
Qed.

Lemma select_requests_nil p db :
  select_requests p db = [] ↔
  ∀ k r, connection_requests db !! k = Some r → p r = false.
Proof.
  split.
  - intros Hnil k r Hk. destruct (p r) eqn:Hp; [|done].
    assert (r ∈ select_requests p db) as Hin by (apply elem_of_select_requests; eauto).
    rewrite Hnil in Hin. by apply elem_of_nil in Hin.
  - intros H. destruct (select_requests p db) as [|r l] eqn:E; [done|].
    assert (r ∈ select_requests p db) as Hin by (rewrite E; left).
    apply elem_of_select_requests in Hin as [Hp [k Hk]].
    rewrite (H k r Hk) in Hp. done.
Qed.

(** The rows a filter selects once a row is stored under an unused key. *)
Lemma select_requests_insert p db k r :
  connection_requests db !! k = None →
  select_requests p (with_requests (insert k r) db)
  ≡ₚ (if p r then [r] else []) ++ select_requests p db.
Proof.
  intros Hk. unfold select_requests. simpl.
  rewrite (map_to_list_insert _ _ _ Hk). simpl.
  destruct (p r) eqn:Hp.
  - by rewrite filter_cons_True.
  - rewrite filter_cons_False; [done|]. by rewrite Hp.
Qed.

Lemma select_requests_users f p db :
  select_requests p (with_users f db) = select_requests p db.
Proof. done. Qed.

Lemma select_users_in_uuids a b db :
  is_uuid a = true → is_uuid b = true →
  select_users_in [a; b] db = inr (omap (λ k, users db !! k) (remove_dups [a; b])).
Proof. intros Ha Hb. unfold select_users_in. simpl. by rewrite Ha, Hb. Qed.

(** The lookup is refused when one of the two ids is not a UUID. *)
Lemma select_users_in_refused a b db :
  is_uuid a = false ∨ is_uuid b = false →
  ∃ k, (k = a ∨ k = b) ∧ is_uuid k = false
       ∧ select_users_in [a; b] db = inl (invalid_uuid k).
Proof.
  intros H. unfold select_users_in. simpl.
  destruct (is_uuid a) eqn:Ea; simpl.
  - destruct H as [?|Eb]; [done|]. rewrite Eb. simpl. eauto.
  - eauto.
Qed.

Lemma select_users_in_pair db a b ua ub :
  is_uuid a = true → is_uuid b = true →
  a ≠ b → users db !! a = Some ua → users db !! b = Some ub →
  select_users_in [a; b] db = inr [ua; ub].
Proof.
  intros Va Vb Hab Ha Hb. rewrite select_users_in_uuids by done. simpl.
  destruct (decide_rel elem_of a [b]) as [Hin|_].
  - by apply list_elem_of_singleton in Hin.
  - simpl. by rewrite Ha, Hb.
Qed.

Lemma find_pair ua ub a b :
  User.id ua = a → User.id ub = b → a ≠ b →
  find (user_id_is a) [ua; ub] = Some ua ∧ find (user_id_is b) [ua; ub] = Some ub.
Proof.
  intros Ha Hb Hab. unfold user_id_is. simpl.
  rewrite (bool_decide_eq_true_2 _ Ha).
  rewrite (bool_decide_eq_false_2 (User.id ua = b)) by congruence.
  by rewrite (bool_decide_eq_true_2 _ Hb).
Qed.

(** What the filter of step 2 selects, for rows of a table that satisfies
    [no_self_connection]. *)
Lemma pending_between_spec a b r :
  ConnectionRequest.from_user r ≠ ConnectionRequest.to_user r →
  pending_between a b r
  = bool_decide (between a b r)
    && bool_decide (ConnectionRequest.status r = REQUEST_STATES.PENDING).
Proof.
  intros Hne. unfold pending_between, between. apply eq_true_iff_eq.
  rewrite !andb_true_iff, !orb_true_iff, !bool_decide_eq_true.
  intuition congruence.
Qed.

Lemma between_pending_between a b r :
  between a b r → ConnectionRequest.status r = REQUEST_STATES.PENDING →
  pending_between a b r = true.
Proof.
  unfold pending_between, between. intros H Hs.
  rewrite !andb_true_iff, !orb_true_iff, !bool_decide_eq_true.
  intuition congruence.
Qed.

Lemma failed_transaction_rolls_back body db :
  ServiceResult.success (transaction body db).1 = false → (transaction body db).2 = db.
Proof. unfold transaction. by destruct (body db). Qed.

End C2.

Section C2_main.
Import Backend ConnectionService.

(** The body of [sendConnectionRequest] once both rows are found: the
    remaining guards and writes. *)
Lemma sendConnectionRequest_body_found db new_id a b ua ub :
  is_uuid a = true → is_uuid b = true →
  users db !! a = Some ua → User.id ua = a →
  users db !! b = Some ub → User.id ub = b →
  a ≠ b →
  sendConnectionRequest_body new_id a b db =
    if negb (bool_decide (User.connection_status ua = CONNECTION_STATES.DISCONNECTED))
    then inl (literal "You must be disconnected to send a connection request")
    else if negb (bool_decide (User.connection_status ub = CONNECTION_STATES.DISCONNECTED))
    then inl (literal "You can only connect with disconnected users")
    else if (0 <? length (select_requests (pending_between a b) db))%nat
    then inl (literal "A connection request already exists between these users")
    else or_throw (insert_request new_id a b REQUEST_STATES.PENDING db) (λ db,
           inr (update_user (User.set_status CONNECTION_STATES.PENDING) b
                  (update_user (User.set_status CONNECTION_STATES.PENDING) a db))).
Proof.
  intros Va Vb Ha Ia Hb Ib Hab. unfold sendConnectionRequest_body.
  rewrite (select_users_in_pair db a b ua ub Va Vb Hab Ha Hb). cbn [or_throw].
  destruct (find_pair ua ub a b Ia Ib Hab) as [-> ->]. done.
Qed.

Lemma pending_requests_between_nil a b db :
  no_self_connection db →
  pending_requests_between a b db = [] →
  select_requests (pending_between a b) db = [].
Proof.
  intros Hwf. unfold pending_requests_between. rewrite !select_requests_nil.
  intros H k r Hk. rewrite pending_between_spec by eauto. eauto.
Qed.

Lemma pending_requests_between_cons a b db :
  pending_requests_between a b db ≠ [] →
  select_requests (pending_between a b) db ≠ [].
Proof.
  unfold pending_requests_between. intros Hne Hnil. apply Hne.
  rewrite select_requests_nil in Hnil. apply select_requests_nil.
  intros k r Hk. specialize (Hnil k r Hk).
  destruct (bool_decide (between a b r)) eqn:E1; [|done].
  destruct (bool_decide (ConnectionRequest.status r = REQUEST_STATES.PENDING)) eqn:E2; [|done].
  apply bool_decide_eq_true in E1, E2.
  rewrite (between_pending_between a b r E1 E2) in Hnil. done.
Qed.

(** The refusal by the table constraint.  Let [a] and [b] be two distinct users
    with a row each, both disconnected, with no pending request that names
    them.  If a request from [a] to [b] is stored in another status, the
    check of step 2 passes, the insert of step 3 is refused by the
    constraint [unique_connection_request] and the call fails with the
    message of the store, for every key the store may draw. *)
Lemma sendConnectionRequest_refused_by_unique_constraint
    (db : Backend.t) (new_id a b : string) (ua ub : User.t) :
  is_uuid a = true → is_uuid b = true →
  users db !! a = Some ua → User.id ua = a →
  users db !! b = Some ub → User.id ub = b →
  a ≠ b →
  User.connection_status ua = CONNECTION_STATES.DISCONNECTED →
  User.connection_status ub = CONNECTION_STATES.DISCONNECTED →
  select_requests (pending_between a b) db = [] →
  connection_requests db !! new_id = None →
  has_request_from_to a b db = true →
  sendConnectionRequest new_id a b db
  = (ServiceResult.mk false
       (Some (store_message (unique_violation "unique_connection_request"))), db).
Proof.
  intros Va Vb Ha Ia Hb Ib Hab Sa Sb Hnone Hfresh Hrow.
  unfold sendConnectionRequest, transaction.
  rewrite (sendConnectionRequest_body_found db new_id a b ua ub Va Vb Ha Ia Hb Ib Hab).
  rewrite (bool_decide_eq_true_2 _ Sa), (bool_decide_eq_true_2 _ Sb), Hnone.
  cbn [negb length Nat.ltb Nat.leb]. unfold insert_request.
  rewrite bool_decide_eq_false_2 by (rewrite Hfresh; apply is_Some_None).
  rewrite bool_decide_eq_true_2 by (rewrite Ha, Hb; eauto).
  by rewrite (bool_decide_eq_false_2 _ Hab), Hrow.
Qed.

(** What [sendConnectionRequest] does for two distinct users with a row
    each, in a store whose request rows satisfy [no_self_connection], with an
    unused key [new_id].  If both are disconnected, no pending request is
    stored for the pair and no request from [a] to [b] is stored in any
    status, the call succeeds, the status of both users is pending and
    exactly one pending request is stored for the pair.  If one of the two is
    not disconnected, or a pending request is stored for the pair, the call
    fails and the store is unchanged. *)
Lemma sendRequest_between_disconnected_users
    (db : Backend.t) (new_id a b : string) (ua ub : User.t) :
  is_uuid a = true → is_uuid b = true →
  users db !! a = Some ua → User.id ua = a →
  users db !! b = Some ub → User.id ub = b →
  a ≠ b →
  no_self_connection db →
  connection_requests db !! new_id = None →
  let res := sendConnectionRequest new_id a b db in
  (User.connection_status ua = CONNECTION_STATES.DISCONNECTED
   ∧ User.connection_status ub = CONNECTION_STATES.DISCONNECTED
   ∧ pending_requests_between a b db = []
   ∧ has_request_from_to a b db = false →
     res.1 = ServiceResult.mk true None
     ∧ User.connection_status <$> users res.2 !! a = Some CONNECTION_STATES.PENDING
     ∧ User.connection_status <$> users res.2 !! b = Some CONNECTION_STATES.PENDING
     ∧ User.connected_to <$> users res.2 !! a = Some (User.connected_to ua)
     ∧ User.connected_to <$> users res.2 !! b = Some (User.connected_to ub)
     ∧ pending_requests_between a b res.2
       = [ConnectionRequest.mk new_id a b REQUEST_STATES.PENDING])
  ∧ (User.connection_status ua ≠ CONNECTION_STATES.DISCONNECTED
     ∨ User.connection_status ub ≠ CONNECTION_STATES.DISCONNECTED
     ∨ pending_requests_between a b db ≠ [] →
     ServiceResult.success res.1 = false ∧ res.2 = db).
Proof.
  intros Va Vb Ha Ia Hb Ib Hab Hwf Hfresh res.
  unfold res, sendConnectionRequest, transaction.
  rewrite (sendConnectionRequest_body_found db new_id a b ua ub Va Vb Ha Ia Hb Ib Hab).
  split.
  - intros (Sa & Sb & Hnone & Huniq).
    rewrite (bool_decide_eq_true_2 _ Sa), (bool_decide_eq_true_2 _ Sb). simpl.
    rewrite (pending_requests_between_nil a b db Hwf Hnone). simpl.
    unfold insert_request.
    rewrite bool_decide_eq_false_2 by (rewrite Hfresh; apply is_Some_None).
    rewrite bool_decide_eq_true_2 by (rewrite Ha, Hb; eauto).
    rewrite (bool_decide_eq_false_2 _ Hab), Huniq. simpl.
    assert (Hua : alter (User.set_status CONNECTION_STATES.PENDING) b
                    (alter (User.set_status CONNECTION_STATES.PENDING) a (users db)) !! a
                  = Some (User.set_status CONNECTION_STATES.PENDING ua)).
    { rewrite lookup_alter_ne by done. by rewrite lookup_alter_eq, Ha. }
    assert (Hub : alter (User.set_status CONNECTION_STATES.PENDING) b
                    (alter (User.set_status CONNECTION_STATES.PENDING) a (users db)) !! b
                  = Some (User.set_status CONNECTION_STATES.PENDING ub)).
    { rewrite lookup_alter_eq, lookup_alter_ne by done. by rewrite Hb. }
    rewrite Hua, Hub.
    split; [done|]. split; [done|]. split; [done|]. split; [done|]. split; [done|].
    unfold pending_requests_between, update_user.
    rewrite !select_requests_users.
    pose proof (select_requests_insert
      (λ r, bool_decide (between a b r)
            && bool_decide (ConnectionRequest.status r = REQUEST_STATES.PENDING))
      db new_id (ConnectionRequest.mk new_id a b REQUEST_STATES.PENDING) Hfresh) as Hperm.
    cbn beta in Hperm. fold (pending_requests_between a b db) in Hperm.
    rewrite Hnone in Hperm.
    rewrite bool_decide_eq_true_2 in Hperm by (left; done).
    cbn [andb bool_decide decide_rel] in Hperm.
    rewrite (bool_decide_eq_true_2 (REQUEST_STATES.PENDING = REQUEST_STATES.PENDING)) in Hperm
      by done.
    rewrite app_nil_r in Hperm. by apply Permutation_singleton_r in Hperm.
  - intros Hbad.
    destruct (decide (User.connection_status ua = CONNECTION_STATES.DISCONNECTED)) as [Sa|Sa];
      [rewrite (bool_decide_eq_true_2 _ Sa)|by rewrite (bool_decide_eq_false_2 _ Sa)].
    destruct (decide (User.connection_status ub = CONNECTION_STATES.DISCONNECTED)) as [Sb|Sb];
      [rewrite (bool_decide_eq_true_2 _ Sb)|by rewrite (bool_decide_eq_false_2 _ Sb)].
    destruct Hbad as [?|[?|Hp]]; [done..|]. simpl.
    apply pending_requests_between_cons in Hp.
    destruct (select_requests (pending_between a b) db); done.
Qed.

End C2_main.

Section C10.
Import Backend ConnectionService.

(** A sender id that is not a UUID: the lookup of the two users is refused,
    the call fails with the message of the store and writes nothing. *)
Lemma sendConnectionRequest_malformed_sender db new_id a b :
  is_uuid a = false →
  sendConnectionRequest new_id a b db
  = (ServiceResult.mk false (Some (store_message (invalid_uuid a))), db).
Proof.
  intros Ha. unfold sendConnectionRequest, transaction, sendConnectionRequest_body,
    select_users_in.
  simpl. by rewrite Ha.
Qed.

(** C10.  The store action [sendRequest] calls the service with the id of
    [connectedUser], or the empty string when there is none, as the sender;
    the signed-in user is no input of the action.  With no connected user
    the sender is the empty string, which is not a UUID: the lookup of the
    two users is refused, so the action returns [false], writes nothing to
    the store, leaves the connection status as it was and reports the
    message of the store. *)
Theorem store_sendRequest_passes_connected_user_id
    (st : ConnectionStore.t) (db : Backend.t) (new_id toUserId : string) :
  let res := ConnectionStore.sendRequest new_id toUserId st db in
  let from := match ConnectionStore.connectedUser st with
              | Some u => User.id u
              | None => ""
              end in
  (res.1.1, res.2)
    = (ServiceResult.success (sendConnectionRequest new_id from toUserId db).1,
       (sendConnectionRequest new_id from toUserId db).2)
  ∧ (ConnectionStore.connectedUser st = None →
       res.1.1 = false
       ∧ res.2 = db
       ∧ ConnectionStore.connectionStatus res.1.2 = ConnectionStore.connectionStatus st
       ∧ ConnectionStore.error res.1.2 = Some (store_message (invalid_uuid ""))).
Proof.
  intros res from. split.
  - unfold res, ConnectionStore.sendRequest, ConnectionStore.connectedUser_id_or_empty.
    simpl. fold from.
    destruct (sendConnectionRequest new_id from toUserId db) as [[[] e] db']; done.
  - intros Hnone.
    unfold res, ConnectionStore.sendRequest, ConnectionStore.connectedUser_id_or_empty.
    simpl. rewrite Hnone.
    rewrite (sendConnectionRequest_malformed_sender db new_id "" toUserId eq_refl).
    done.
Qed.

End C10.

Section C8.
Import Backend ConnectionService.

(** [disconnectUsers] on a connected user: both rows are reset. *)
Lemma disconnectUsers_connected db a b ua ub :
  users db !! a = Some ua →
  User.connection_status ua = CONNECTION_STATES.CONNECTED →
  User.connected_to ua = Some b → b ≠ "" →
  users db !! b = Some ub →
  let res := disconnectUsers a db in
  res.1 = ServiceResult.mk true None
  ∧ users res.2 !! a = Some (User.set_connection CONNECTION_STATES.DISCONNECTED None ua)
  ∧ users res.2 !! b = Some (User.set_connection CONNECTION_STATES.DISCONNECTED None ub)
  ∧ connection_requests res.2 = connection_requests db
  ∧ messages res.2 = messages db.
Proof.
  intros Ha Sa Ca Hne Hb. simpl.
  unfold disconnectUsers, transaction, disconnectUsers_body.
  rewrite (select_user_single_hit db a _ ua Ha Sa). simpl. rewrite Ca.
  rewrite (bool_decide_eq_false_2 _ Hne). simpl. repeat split.
  - by apply alter_reset_twice.
  - by apply alter_reset_twice_r.
Qed.

(** [disconnectUsers] on a user who is not connected fails at its first
    step and writes nothing. *)
Lemma disconnectUsers_not_connected db a :
  (∀ ua, users db !! a = Some ua →
         User.connection_status ua ≠ CONNECTION_STATES.CONNECTED
         ∨ User.connected_to ua = None) →
  NotConnectedError (disconnectUsers a db).1 ∧ (disconnectUsers a db).2 = db.
Proof.
  intros H. unfold disconnectUsers, transaction, disconnectUsers_body.
  destruct (users db !! a) as [ua|] eqn:Ha.
  - destruct (decide (User.connection_status ua = CONNECTION_STATES.CONNECTED)) as [Sa|Sa].
    + rewrite (select_user_single_hit db a _ ua Ha Sa). simpl.
      destruct (H ua eq_refl) as [?|Hc]; [done|]. rewrite Hc. simpl.
      split; [|done]. split; [done|]. by right.
    + rewrite select_user_single_miss.
      * simpl. split; [|done]. split; [done|]. by left.
      * intros u Hu. rewrite Ha in Hu. by inversion Hu; subst.
  - rewrite select_user_single_miss.
    + simpl. split; [|done]. split; [done|]. by left.
    + intros u Hu. rewrite Ha in Hu. done.
Qed.

(** C8.  Let [a] be the signed-in user, connected to [b].  [confirmDisconnect]
    resets both rows to disconnected with no peer and empties the message
    window of the store; the durable storage of the device, which holds the
    cached messages of the conversation, is left as it was. *)
Theorem confirmDisconnect_keeps_persisted_history
    (app : App.t) (db : Backend.t) (a b : string) (me ua ub : User.t) :
  App.user app = Some me → User.id me = a →
  users db !! a = Some ua →
  User.connection_status ua = CONNECTION_STATES.CONNECTED →
  User.connected_to ua = Some b → b ≠ "" →
  users db !! b = Some ub →
  let res := SettingsScreen.confirmDisconnect app db in
  users res.2 !! a = Some (User.set_connection CONNECTION_STATES.DISCONNECTED None ua)
  ∧ users res.2 !! b = Some (User.set_connection CONNECTION_STATES.DISCONNECTED None ub)
  ∧ MessageStore.messages (App.messageStore res.1) = []
  ∧ App.device res.1 = App.device app.
Proof.
  intros Hme Hid Ha Sa Ca Hne Hb res.
  destruct (disconnectUsers_connected db a b ua ub Ha Sa Ca Hne Hb) as (Hr & Hua & Hub & _).
  unfold res, SettingsScreen.confirmDisconnect, ConnectionStore.disconnect.
  rewrite Hme, Hid.
  destruct (disconnectUsers a db) as [r db'] eqn:E. simpl in *. subst r. simpl.
  done.
Qed.

End C8.

(* ===================================================================== *)
(** * Properties of the offline queue                                     *)
(* ===================================================================== *)

Section C5.
Import MessageService.

Lemma imap_refs (n : nat) (l : list QueueEntry) :
  (imap (λ i e, (n + i, e)) l).*1 = seq n (length l)
  ∧ (imap (λ i e, (n + i, e)) l).*2 = l.
Proof.
  revert n. induction l as [|e l IH]; intros n; [done|].
  destruct (IH (S n)) as [IH1 IH2].
  assert (Hext : imap ((λ i e0, (n + i, e0)) ∘ S) l = imap (λ i e0, (S n + i, e0)) l).
  { apply imap_ext. intros i x _. simpl. f_equal. lia. }
  cbn [imap fmap list_fmap length seq]. rewrite Hext.
  change (list_fmap ?f ?l) with (f <$> l) in *.
  rewrite IH1, IH2, Nat.add_0_r. done.
Qed.


Lemma JSON_stringify_parse (l : list QueueEntry) : JSON_stringify (JSON_parse l) = l.
Proof. unfold JSON_stringify, JSON_parse. by destruct (imap_refs 0 l) as [_ H]. Qed.

(** [addToOfflineQueue] puts the new entry behind the stored ones. *)
Lemma addToOfflineQueue_appends (toUserId content : string) (now : N) (ls : QueueStorage) :
  JSON_stringify (getOfflineMessageQueue (addToOfflineQueue toUserId content now ls))
  = JSON_stringify (getOfflineMessageQueue ls) ++ [mkEntry toUserId content now].
Proof.
  unfold addToOfflineQueue. cbn [getOfflineMessageQueue].
  by rewrite JSON_stringify_parse.
Qed.








End C5.

(* ===================================================================== *)
(** * Properties of the message store                                     *)
(* ===================================================================== *)

Section C6.
Import MessageService MessageStore.

Lemma map_replace_sent_other tempId data (l : list LocalMessage) :
  (∀ m, m ∈ l → Message.id (row m) ≠ tempId) → map (replace_sent tempId data) l = l.
Proof.
  induction l as [|m l IH]; intros H; [done|]. simpl.
  unfold replace_sent at 1.
  rewrite bool_decide_eq_false_2 by (apply H; left).
  rewrite IH; [done|]. intros m' Hm'. apply H. by right.
Qed.

Lemma map_mark_failed_other tempId (l : list LocalMessage) :
  (∀ m, m ∈ l → Message.id (row m) ≠ tempId) → map (mark_failed tempId) l = l.
Proof.
  induction l as [|m l IH]; intros H; [done|]. simpl.
  unfold mark_failed at 1.
  rewrite bool_decide_eq_false_2 by (apply H; left).
  rewrite IH; [done|]. intros m' Hm'. apply H. by right.
Qed.

Lemma messages_setTypingStatus b user peer s :
  messages (setTypingStatus b user peer s) = messages s
  ∧ isOnline (setTypingStatus b user peer s) = isOnline s.
Proof.
  unfold setTypingStatus. destruct user, peer; try done.
  destruct (_ || _); done.
Qed.

(** C6.  Let the store be online with a signed-in user [u] and a connected
    user [p].  [sendMessage] is the optimistic step, the service call and
    the settling step, in this order.  In the state the call is suspended in
    while the service call runs, the window is the previous window with the
    optimistic message (temporary id, [localStatus = sending]) at its head.
    When the service call resolves, whatever else was put around that message
    in the meantime, the message is replaced where it stands by the row of
    the store with [localStatus = sent] on success, and by itself with
    [localStatus = failed] on failure. *)
Theorem sendMessage_online_is_optimistic
    (u p : User.t) (content : string) (clock : nat → N)
    (s : MessageStore.t) (dev : Device) (db : Backend.t) :
  isOnline s = true → User.id u ≠ "" → User.id p ≠ "" →
  let s0 := setTypingStatus false (Some u) (Some p) (set_error None (set_sending true s)) in
  let tempId := temp_id (clock 0) in
  let optimistic := optimisticMessage tempId (User.id u) (User.id p) content (clock 1) in
  let at_await := (sendMessage_optimistic u p content clock s0).2 in
  let answer := MessageService.sendMessage (User.id u) (User.id p) content (clock 2) db in
  sendMessage content clock (Some u) (Some p) s dev db
    = (sendMessage_settle tempId answer.1 at_await, dev, answer.2)
  ∧ messages at_await = optimistic :: messages s
  ∧ Message.id (row optimistic) = tempId
  ∧ localStatus optimistic = Some sending
  ∧ ∀ (before after : list LocalMessage) (s2 : MessageStore.t) (r : SendResult),
      messages s2 = before ++ optimistic :: after →
      (∀ m, m ∈ before ++ after → Message.id (row m) ≠ tempId) →
      messages (sendMessage_settle tempId r s2)
      = before ++
        match send_success r, send_data r with
        | true, Some data => mkLocal data (Some sent)
        | _, _ => mkLocal (row optimistic) (Some failed)
        end :: after.
Proof.
  intros Hon Hu Hp s0 tempId optimistic at_await answer.
  destruct (messages_setTypingStatus false (Some u) (Some p)
              (set_error None (set_sending true s))) as [Hm0 Ho0].
  fold s0 in Hm0, Ho0. simpl in Hm0, Ho0.
  split; [|split; [|split; [|split]]].
  - unfold sendMessage.
    rewrite (bool_decide_eq_false_2 _ Hu), (bool_decide_eq_false_2 _ Hp).
    cbn [orb]. fold s0. rewrite Ho0, Hon. cbn [negb].
    unfold sendMessage_optimistic. fold tempId answer.
    by destruct answer.
  - unfold at_await. simpl. by rewrite Hm0.
  - done.
  - done.
  - intros before after s2 r Hs2 Hother.
    assert (Hb : ∀ m, m ∈ before → Message.id (row m) ≠ tempId)
      by (intros m Hm; apply Hother, elem_of_app; by left).
    assert (Ha : ∀ m, m ∈ after → Message.id (row m) ≠ tempId)
      by (intros m Hm; apply Hother, elem_of_app; by right).
    unfold sendMessage_settle.
    destruct (send_success r), (send_data r) as [data|]; simpl; rewrite Hs2, map_app; simpl;
      rewrite ?map_replace_sent_other, ?map_mark_failed_other by done;
      unfold replace_sent, mark_failed; simpl;
      by rewrite bool_decide_eq_true_2.
Qed.

End C6.

Section C4.
Import MessageService MessageStore.

Lemma service_sendMessage_too_long a b content now db :
  trim content ≠ "" → 500 < String.length content →
  MessageService.sendMessage a b content now db
  = (mkSend false None (Some (literal "Message is too long (max 500 characters)")), db).
Proof.
  intros Ht Hl. unfold MessageService.sendMessage.
  rewrite (bool_decide_eq_false_2 _ Ht).
  destruct (500 <? String.length content)%nat eqn:E; [done|].
  apply Nat.ltb_ge in E. lia.
Qed.

(** C4.  Let [content] be a non-blank text of 501 characters.  The store's
    [sendMessage] makes no insert, but it does record the message: online,
    the window gets the message (then marked failed) and the error of the
    service; offline, the window gets the message, the offline queue gets an
    entry for it and no error is reported. *)
Theorem sendMessage_overlong_is_recorded
    (u p : User.t) (content : string) (clock : nat → N)
    (s : MessageStore.t) (dev : Device) (db : Backend.t) :
  String.length content = 501 → trim content ≠ "" →
  User.id u ≠ "" → User.id p ≠ "" →
  let res := sendMessage content clock (Some u) (Some p) s dev db in
  res.2 = db
  ∧ if isOnline s then
      messages res.1.1
        = mkLocal (Message.mk (temp_id (clock 0)) (User.id u) (User.id p) content None (clock 1))
                  (Some failed)
          :: map (mark_failed (temp_id (clock 0))) (messages s)
      ∧ MessageStore.error res.1.1
        = Some (literal "Message is too long (max 500 characters)")
    else
      messages res.1.1
        = optimisticMessage (offline_id (clock 1)) (User.id u) (User.id p) content (clock 2)
          :: messages s
      ∧ localStorage res.1.2
        = Some (JSON_stringify (getOfflineMessageQueue (localStorage dev))
                ++ [mkEntry (User.id p) content (clock 0)])
      ∧ MessageStore.error res.1.1 = None.
Proof.
  intros Hlen Hne Hu Hp res.
  destruct (messages_setTypingStatus false (Some u) (Some p)
              (set_error None (set_sending true s))) as [Hm0 Ho0].
  change (messages (set_error None (set_sending true s))) with (messages s) in Hm0.
  change (isOnline (set_error None (set_sending true s))) with (isOnline s) in Ho0.
  unfold res, sendMessage.
  rewrite (bool_decide_eq_false_2 _ Hu), (bool_decide_eq_false_2 _ Hp).
  cbn [orb]. rewrite Ho0. destruct (isOnline s) eqn:Hon; cbn [negb].
  - unfold sendMessage_optimistic.
    rewrite service_sendMessage_too_long by (done || lia).
    unfold sendMessage_settle. cbn [send_success send_data send_error fst snd].
    split; [done|]. split; [|done].
    cbn [messages set_messages set_error set_sending map]. rewrite Hm0.
    unfold mark_failed at 1. cbn [row optimisticMessage Message.id].
    by rewrite bool_decide_eq_true_2.
  - cbn [fst snd messages set_messages set_sending localStorage].
    rewrite Hm0. split; [done|]. split; [done|]. split; [done|].
    unfold setTypingStatus. rewrite (bool_decide_eq_false_2 _ Hu), (bool_decide_eq_false_2 _ Hp).
    cbn [orb]. cbn. by rewrite Hon.
Qed.

End C4.

Section C3.
Import MessageService MessageStore.

Lemma markAsRead_twice_keeps_second_timestamp
    (messageId : string) (t1 t2 : N) (s : MessageStore.t) (db : Backend.t) :
  let once := markAsRead messageId t1 s db in
  let twice := markAsRead messageId t2 once.1 once.2 in
  messages once.1 = map (read_mark messageId t1) (messages s)
  ∧ Backend.messages once.2
    = alter (Message.set_read_at (Some t1)) messageId (Backend.messages db)
  ∧ messages twice.1 = map (read_mark messageId t2) (messages s)
  ∧ Backend.messages twice.2
    = alter (Message.set_read_at (Some t2)) messageId (Backend.messages db).
Proof.
  simpl. repeat split.
  - rewrite map_map. apply map_ext. intros msg. unfold read_mark.
    destruct (bool_decide (Message.id (row msg) = messageId)) eqn:E; simpl; by rewrite E.
  - rewrite alter_alter_eq. apply alter_ext. done.
Qed.

End C3.

Section C9.
Import MessageService MessageStore.

Lemma slice_last_drop {A} (n : nat) (l : list A) :
  0 < n → slice_last n l = drop (length l - n) l.
Proof.
  intros Hn. unfold slice_last, slice_from.
  destruct (- Z.of_nat n <? 0)%Z eqn:E; [|apply Z.ltb_ge in E; lia].
  f_equal. lia.
Qed.

(** The window and the cached list are the tail ends of the combined list,
    of at most 200 and 100 elements. *)
Lemma trim_window_spec (combined : list LocalMessage) :
  (trim_window combined).1 = drop (length combined - 200) combined
  ∧ (trim_window combined).2 = drop (length combined - 100) combined
  ∧ length (trim_window combined).1 ≤ 200
  ∧ length (trim_window combined).2 ≤ 100.
Proof.
  unfold trim_window. simpl. rewrite !slice_last_drop by lia.
  rewrite drop_drop, !length_drop. repeat split; try lia.
  f_equal. lia.
Qed.

(** A successful load leaves at most 200 messages in the window. *)
Lemma loadMoreMessages_bound userId partnerId data s dev :
  isLoadingMore s = false → hasMoreMessages s = true →
  length (messages (loadMoreMessages userId partnerId (mkHistory true (Some data) None)
                      s dev).1) ≤ 200.
Proof.
  intros H1 H2. unfold loadMoreMessages. rewrite H1, H2. simpl.
  destruct (trim_window_spec (messages s ++ (of_row <$> data))) as (_ & _ & Hb & _).
  unfold trim_window in *. simpl in *. done.
Qed.

(** C9.  A conversation of 220 messages is loaded page by page.  After ten
    pages the window holds the 200 newest messages.  When the eleventh page
    arrives the window keeps 200 messages, but it is the 20 newest that are
    dropped and the 20 oldest that are kept.  The cache written for the next
    cold start after six pages (120 messages) likewise lacks the 20
    newest. *)
Theorem loadMoreMessages_drops_newest_messages :
  let before := Scenario.after_pages 9 in
  let after := Scenario.after_pages 10 in
  (* ten pages: the 200 newest messages, newest first *)
  messages before.1 = of_row <$> Scenario.newest_first 21 200
  (* the eleventh page arrives: the 20 newest are gone, the 20 oldest are in *)
  ∧ messages after.1 = of_row <$> Scenario.newest_first 1 200
  ∧ bool_decide (of_row (Scenario.history_message 220) ∈ messages after.1) = false
  ∧ bool_decide (of_row (Scenario.history_message 1) ∈ messages after.1) = true
  (* the cache for the cold start after six pages: the 20 newest are missing *)
  ∧ asyncStorage (Scenario.after_pages 5).2 !! messages_key Scenario.alice_id Scenario.bob_id
    = Some (stored_messages (of_row <$> Scenario.newest_first 101 100)).
Proof. vm_compute. repeat split. Qed.

End C9.

(* ===================================================================== *)
(** * The theorems at concrete inputs                                     *)
(* ===================================================================== *)

Section Runs.
Import Backend ConnectionService MessageService MessageStore Scenario.

(** C1 at the request of Alice to Bob. *)
Lemma acceptRequest_witness :
  (acceptConnectionRequest request_id db_requested).1 = ServiceResult.mk true None
  ∧ ConnectionRequest.status <$> connection_requests db_connected !! request_id
    = Some REQUEST_STATES.ACCEPTED
  ∧ User.connection_status <$> users db_connected !! alice_id
    = Some CONNECTION_STATES.CONNECTED
  ∧ User.connected_to <$> users db_connected !! alice_id = Some (Some bob_id)
  ∧ User.connection_status <$> users db_connected !! bob_id
    = Some CONNECTION_STATES.CONNECTED
  ∧ User.connected_to <$> users db_connected !! bob_id = Some (Some alice_id)
  ∧ RequestNotFoundError (acceptConnectionRequest request_id db_connected).1
  ∧ (acceptConnectionRequest request_id db_connected).2 = db_connected.
Proof.
  destruct (acceptRequest_succeeds_exactly_once db_requested request_id alice_id bob_id
              request_r1
              (User.set_status CONNECTION_STATES.PENDING alice)
              (User.set_status CONNECTION_STATES.PENDING bob))
    as (H1 & H2 & H3 & H4 & H5 & H6 & _ & _ & H9 & H10);
    [reflexivity | reflexivity | reflexivity | reflexivity | discriminate
    | reflexivity | reflexivity |].
  exact (conj H1 (conj H2 (conj H3 (conj H4 (conj H5 (conj H6 (conj H9 H10))))))).
Defined.

(** C7 at the request of Alice to Bob. *)
Lemma rejectRequest_witness :
  (rejectConnectionRequest request_id db_requested).1 = ServiceResult.mk true None
  ∧ ConnectionRequest.status <$> connection_requests db_rejected !! request_id
    = Some REQUEST_STATES.REJECTED
  ∧ User.connection_status <$> users db_rejected !! alice_id
    = Some CONNECTION_STATES.DISCONNECTED
  ∧ User.connected_to <$> users db_rejected !! alice_id = Some None
  ∧ User.connection_status <$> users db_rejected !! bob_id
    = Some CONNECTION_STATES.DISCONNECTED
  ∧ User.connected_to <$> users db_rejected !! bob_id = Some None.
Proof.
  pose proof (rejectRequest_resets_both_parties db_requested request_id alice_id bob_id
                request_r1
                (User.set_status CONNECTION_STATES.PENDING alice)
                (User.set_status CONNECTION_STATES.PENDING bob)
                eq_refl eq_refl eq_refl eq_refl eq_refl) as H.
  cbv zeta in H.
  destruct (decide (ConnectionRequest.status request_r1 = REQUEST_STATES.PENDING))
    as [_|Hn]; [|exfalso; apply Hn; reflexivity].
  exact H.
Defined.

(** C2.  After Bob has declined the request of Alice the row of the request
    is kept with the status rejected, both users are disconnected and no
    pending request is stored for the pair: the check of
    [sendConnectionRequest] for an existing request finds nothing.  Yet a new
    request of Alice to Bob is refused by the constraint
    [unique_connection_request] of the requests table, with the message of
    the store and no change of state, while the same request of Bob to Alice
    succeeds.  The request of Alice to Bob is refused in the same way after
    Bob has accepted and the two have disconnected. *)
Theorem sendRequest_refused_after_rejection :
  User.connection_status <$> users db_rejected !! alice_id
  = Some CONNECTION_STATES.DISCONNECTED
  ∧ User.connection_status <$> users db_rejected !! bob_id
    = Some CONNECTION_STATES.DISCONNECTED
  ∧ ConnectionRequest.status <$> connection_requests db_rejected !! request_id
    = Some REQUEST_STATES.REJECTED
  ∧ pending_requests_between alice_id bob_id db_rejected = []
  ∧ select_requests (pending_between alice_id bob_id) db_rejected = []
  ∧ connection_requests db_rejected !! request_id2 = None
  ∧ sendConnectionRequest request_id2 alice_id bob_id db_rejected
    = (ServiceResult.mk false
         (Some (store_message (unique_violation "unique_connection_request"))),
       db_rejected)
  ∧ (sendConnectionRequest request_id2 bob_id alice_id db_rejected).1
    = ServiceResult.mk true None
  ∧ (let db_apart := (disconnectUsers alice_id db_connected).2 in
     User.connection_status <$> users db_apart !! alice_id
     = Some CONNECTION_STATES.DISCONNECTED
     ∧ User.connection_status <$> users db_apart !! bob_id
       = Some CONNECTION_STATES.DISCONNECTED
     ∧ pending_requests_between alice_id bob_id db_apart = []
     ∧ sendConnectionRequest request_id2 alice_id bob_id db_apart
       = (ServiceResult.mk false
            (Some (store_message (unique_violation "unique_connection_request"))),
          db_apart)).
Proof. cbv zeta. repeat apply conj; vm_compute; reflexivity. Qed.

(** The first request of Alice to Bob, which no stored row stands against,
    succeeds. *)
Lemma sendRequest_witness :
  (sendConnectionRequest request_id alice_id bob_id db0).1 = ServiceResult.mk true None
  ∧ User.connection_status <$> users db_requested !! alice_id
    = Some CONNECTION_STATES.PENDING
  ∧ User.connection_status <$> users db_requested !! bob_id
    = Some CONNECTION_STATES.PENDING
  ∧ pending_requests_between alice_id bob_id db_requested = [request_r1].
Proof.
  assert (Hwf : no_self_connection db0).
  { intros k r H. simpl in H. rewrite lookup_empty in H. discriminate. }
  destruct (sendRequest_between_disconnected_users db0 request_id alice_id bob_id alice bob)
    as [H _];
    [reflexivity | reflexivity | reflexivity | reflexivity | reflexivity | reflexivity
    | discriminate | exact Hwf | reflexivity |].
  destruct H as (H1 & H2 & H3 & _ & _ & H6); [repeat split; reflexivity|].
  exact (conj H1 (conj H2 (conj H3 H6))).
Defined.

(** C10 at a freshly created connection store. *)
Lemma store_sendRequest_witness :
  let res := ConnectionStore.sendRequest request_id bob_id ConnectionStore.initial db0 in
  res.1.1 = false
  ∧ res.2 = db0
  ∧ ConnectionStore.connectionStatus res.1.2 = None
  ∧ ConnectionStore.error res.1.2 = Some (store_message (invalid_uuid "")).
Proof.
  destruct (store_sendRequest_passes_connected_user_id ConnectionStore.initial db0
              request_id bob_id) as [_ H].
  exact (H eq_refl).
Defined.

(** C8 at Alice's client after the first page of the conversation was loaded:
    the window is emptied, the cached page is still stored, and restoring the
    cache brings the page back into the window. *)
Lemma confirmDisconnect_witness :
  let res := SettingsScreen.confirmDisconnect app_chatting db_chat in
  users res.2 !! alice_id = Some alice
  ∧ users res.2 !! bob_id = Some bob
  ∧ messages (App.messageStore res.1) = []
  ∧ asyncStorage (App.device res.1) !! messages_key alice_id bob_id
    = Some (stored_messages (of_row <$> newest_first 201 20))
  ∧ messages (restoreCachedMessages alice_id bob_id (App.messageStore res.1) (App.device res.1))
    = of_row <$> newest_first 201 20.
Proof.
  destruct (confirmDisconnect_keeps_persisted_history app_chatting db_chat alice_id bob_id
              alice_connected alice_connected bob_connected)
    as (H1 & H2 & H3 & H4);
    [reflexivity | reflexivity | reflexivity | reflexivity | reflexivity
    | discriminate | reflexivity |].
  cbv zeta. rewrite H1, H2, H3.
  unfold restoreCachedMessages. rewrite H4.
  repeat split; vm_compute; reflexivity.
Defined.

(** C3.  A message received at time 900 is marked as read at time 1000 and
    again at time 2000: after the second call its [read_at], in the window
    and in the store, is 2000 and no longer 1000. *)
Theorem markAsRead_second_call_overwrites_readAt :
  let received := Message.mk "m1" bob_id alice_id "hello" None 900 in
  let db := Backend.mk (users db_connected) (connection_requests db_connected)
                       {["m1" := received]} [] in
  let s := set_messages [of_row received] MessageStore.initial in
  let once := markAsRead "m1" 1000 s db in
  let twice := markAsRead "m1" 2000 once.1 once.2 in
  Message.read_at ∘ row <$> messages once.1 = [Some 1000%N]
  ∧ Message.read_at <$> Backend.messages once.2 !! "m1" = Some (Some 1000%N)
  ∧ Message.read_at ∘ row <$> messages twice.1 = [Some 2000%N]
  ∧ Message.read_at <$> Backend.messages twice.2 !! "m1" = Some (Some 2000%N).
Proof. vm_compute. repeat split. Qed.

(** C4 at a text of 501 letters, online and offline. *)
Lemma sendMessage_overlong_witness :
  String.length overlong = 501
  ∧ (let res := sendMessage overlong clock (Some alice_connected) (Some bob_connected)
                            chat_online device0 db_chat in
     res.2 = db_chat
     ∧ Message.content ∘ row <$> messages res.1.1 = [overlong]
     ∧ localStatus <$> messages res.1.1 = [Some failed])
  ∧ (let res := sendMessage overlong clock (Some alice_connected) (Some bob_connected)
                            chat_offline device0 db_chat in
     res.2 = db_chat
     ∧ Message.content ∘ row <$> messages res.1.1 = [overlong]
     ∧ localStorage res.1.2 = Some [mkEntry bob_id overlong 1000]).
Proof.
  assert (Hlen : String.length overlong = 501) by (vm_compute; reflexivity).
  assert (Htrim : trim overlong ≠ "") by (vm_compute; discriminate).
  split; [exact Hlen|]. split.
  - destruct (sendMessage_overlong_is_recorded alice_connected bob_connected overlong clock
                chat_online device0 db_chat Hlen Htrim) as (H1 & H2 & _);
      [discriminate | discriminate |].
    cbv zeta. rewrite H1, H2. repeat split.
  - destruct (sendMessage_overlong_is_recorded alice_connected bob_connected overlong clock
                chat_offline device0 db_chat Hlen Htrim) as (H1 & H2 & H3 & _);
      [discriminate | discriminate |].
    cbv zeta. rewrite H1, H2, H3. repeat split.
Defined.

(** C6 at a first message of Alice to Bob. *)
Lemma sendMessage_online_witness :
  let res := sendMessage "hello" clock (Some alice_connected) (Some bob_connected)
                         chat_online device0 db_chat in
  messages (sendMessage_optimistic alice_connected bob_connected "hello" clock chat_online).2
    = [optimisticMessage "temp-1000" alice_id bob_id "hello" 1001]
  ∧ messages res.1.1
    = [mkLocal (Message.mk "m1" alice_id bob_id "hello" None 1002) (Some sent)].
Proof.
  destruct (sendMessage_online_is_optimistic alice_connected bob_connected "hello" clock
              chat_online device0 db_chat) as (H1 & H2 & _);
    [reflexivity | discriminate | discriminate |].
  cbv zeta. rewrite H1. split; vm_compute; reflexivity.
Defined.

(** A drain that fails at the second of three entries keeps the second and
    the third, in order. *)
Lemma processOfflineQueue_run :
  let e1 := mkEntry bob_id "one" 10 in
  let e2 := mkEntry bob_id "two" 20 in
  let e3 := mkEntry bob_id "three" 30 in
  let db := Backend.mk (users db_connected) (connection_requests db_connected) ∅
                       [Some "m1"; None; Some "m3"] in
  let '(res, ls', calls, _) := processOfflineQueue alice_id clock (Some [e1; e2; e3]) db in
  ServiceResult.success res = false
  ∧ calls = [(e1, true); (e2, false)]
  ∧ ls' = Some [e2; e3].
Proof. vm_compute. repeat split. Qed.

(** Two entries that are equal as values are still two objects: the drain
    that fails at the second keeps exactly one of them. *)
Lemma processOfflineQueue_equal_entries :
  let e := mkEntry bob_id "ok" 10 in
  let db := Backend.mk (users db_connected) (connection_requests db_connected) ∅
                       [Some "m1"; None] in
  let '(res, ls', calls, _) := processOfflineQueue alice_id clock (Some [e; e]) db in
  calls = [(e, true); (e, false)] ∧ ls' = Some [e].
Proof. vm_compute. repeat split. Qed.

End Runs.

(* ===================================================================== *)
(** * The connection operations keep the store coherent                   *)
(* ===================================================================== *)

Section Coherence.
Import Backend ConnectionService.

(** A row of the users table after two rows were rewritten. *)
Lemma lookup_update_user2 (f g : User.t → User.t) (x y k : string) (db : Backend.t) :
  users (update_user g y (update_user f x db)) !! k
  = (if decide (y = k) then g else id) <$>
      ((if decide (x = k) then f else id) <$> users db !! k).
Proof.
  unfold update_user, with_users. cbn [users].
  destruct (decide (y = k)) as [->|Hy], (decide (x = k)) as [->|Hx];
    rewrite ?lookup_alter_eq, ?lookup_alter_ne by done;
    rewrite ?lookup_alter_eq, ?lookup_alter_ne by done;
    destruct (users db !! k); reflexivity.
Qed.

Lemma connection_requests_update_user f x db :
  connection_requests (update_user f x db) = connection_requests db.
Proof. done. Qed.

(** A user who is not connected has no peer. *)
Lemma coherent_no_peer db k u :
  coherent db → users db !! k = Some u →
  User.connection_status u ≠ CONNECTION_STATES.CONNECTED →
  User.connected_to u = None.
Proof.
  intros Hc Hu Hs. destruct (User.connected_to u) as [j|] eqn:E; [|done].
  exfalso. apply Hs. apply (peer_iff_connected db Hc k u Hu). by rewrite E.
Qed.

(** When a call of a transaction succeeds, its body ended with the new store. *)
Lemma transaction_success body db :
  ServiceResult.success (transaction body db).1 = true →
  body db = inr (transaction body db).2.
Proof. unfold transaction. by destruct (body db). Qed.

Lemma transaction_failure body db :
  ServiceResult.success (transaction body db).1 = false → (transaction body db).2 = db.
Proof. unfold transaction. by destruct (body db). Qed.

Lemma transaction_cases body db :
  (transaction body db).2 = db ∨ body db = inr (transaction body db).2.
Proof. unfold transaction. destruct (body db); simpl; auto. Qed.

Lemma lookup_update_user2_Some (f g : User.t → User.t) (x y k : string) db u' :
  users (update_user g y (update_user f x db)) !! k = Some u' →
  ∃ u, users db !! k = Some u
       ∧ u' = (if decide (y = k) then g else id) ((if decide (x = k) then f else id) u).
Proof.
  rewrite lookup_update_user2. destruct (users db !! k) as [u|]; [|done].
  simpl. intros [= <-]. eauto.
Qed.

Lemma lookup_update_user2_other (f g : User.t → User.t) (x y k : string) db :
  k ≠ x → k ≠ y →
  users (update_user g y (update_user f x db)) !! k = users db !! k.
Proof.
  intros Hx Hy. rewrite lookup_update_user2.
  rewrite !decide_False by done. by destruct (users db !! k).
Qed.

Lemma select_request_single_inv db k s r e :
  select_request_single k s db = (Some r, e) →
  connection_requests db !! k = Some r ∧ ConnectionRequest.status r = s.
Proof.
  unfold select_request_single.
  destruct (connection_requests db !! k) as [r'|]; simpl; [|done].
  destruct (decide (ConnectionRequest.status r' = s)) as [Hs|Hs].
  - rewrite filter_cons_True by done. simpl. by intros [= <- _].
  - rewrite filter_cons_False by done. done.
Qed.

Lemma select_user_single_inv db k s u e :
  select_user_single k s db = (Some u, e) →
  users db !! k = Some u ∧ User.connection_status u = s.
Proof.
  unfold select_user_single.
  destruct (users db !! k) as [u'|]; simpl; [|done].
  destruct (decide (User.connection_status u' = s)) as [Hs|Hs].
  - rewrite filter_cons_True by done. simpl. by intros [= <- _].
  - rewrite filter_cons_False by done. done.
Qed.

(** Closing a pending request by giving both its ends a new connection
    state, [pa] and [pb] being the peers written into the rows of [a] and
    [b].  The store stays coherent when the closed request is no longer
    pending and the new rows are either connected to each other or
    disconnected without a peer. *)
Lemma coherent_close_request db rid R (a b : string) (st : CONNECTION_STATES.t)
    (s' : REQUEST_STATES.t) (pa pb : option string) :
  coherent db →
  connection_requests db !! rid = Some R →
  ConnectionRequest.status R = REQUEST_STATES.PENDING →
  ConnectionRequest.from_user R = a →
  ConnectionRequest.to_user R = b →
  s' ≠ REQUEST_STATES.PENDING →
  (st = CONNECTION_STATES.CONNECTED ∧ pa = Some b ∧ pb = Some a
   ∨ st = CONNECTION_STATES.DISCONNECTED ∧ pa = None ∧ pb = None) →
  coherent
    (update_user (User.set_connection st pb) b
       (update_user (User.set_connection st pa) a
          (update_request (ConnectionRequest.set_status s') rid db))).
Proof.
  intros Hc HR Hpend Hfrom Hto Hs' Hst.
  set (db1 := update_request (ConnectionRequest.set_status s') rid db).
  assert (Hu1 : users db1 = users db) by done.
  destruct (pending_parties db Hc rid R a HR Hpend (or_introl Hfrom)) as (ua & Hua & Sa).
  destruct (pending_parties db Hc rid R b HR Hpend (or_intror Hto)) as (ub & Hub & Sb).
  assert (Pa : User.connected_to ua = None)
    by (apply (coherent_no_peer db a ua Hc Hua); by rewrite Sa).
  assert (Pb : User.connected_to ub = None)
    by (apply (coherent_no_peer db b ub Hc Hub); by rewrite Sb).
  (* no row points to [a] or [b] *)
  assert (Hnot : ∀ k u j, users db !! k = Some u → User.connected_to u = Some j →
                          j ≠ a ∧ j ≠ b).
  { intros k u j Hu Hj.
    destruct (peer_symmetric db Hc k u j Hu Hj) as (v & Hv & Hvk).
    split; intros ->; rewrite Hv in *; congruence. }
  (* the requests that are pending afterwards *)
  assert (Hreq : ∀ rk r, connection_requests db1 !! rk = Some r →
                 ConnectionRequest.status r = REQUEST_STATES.PENDING →
                 rk ≠ rid ∧ connection_requests db !! rk = Some r).
  { intros rk r Hr Hp. unfold db1 in Hr. simpl in Hr.
    destruct (decide (rk = rid)) as [->|Hne].
    - rewrite lookup_alter_eq, HR in Hr. simpl in Hr.
      injection Hr as <-. simpl in Hp. done.
    - rewrite lookup_alter_ne in Hr by done. done. }
  (* a pending request other than [R] has neither [a] nor [b] as a party *)
  assert (Hparty : ∀ rk r k, rk ≠ rid → connection_requests db !! rk = Some r →
                   ConnectionRequest.status r = REQUEST_STATES.PENDING → party k r →
                   k ≠ a ∧ k ≠ b).
  { intros rk r k Hne Hr Hp Hk. split; intros ->; apply Hne;
      apply (one_pending db Hc rk r rid R Hr HR Hp Hpend);
      unfold shares_party, party in *; rewrite Hfrom, Hto; tauto. }
  (* the rows of [a] and [b] afterwards *)
  assert (Hrow : ∀ k u', users (update_user (User.set_connection st pb) b
                            (update_user (User.set_connection st pa) a db1)) !! k = Some u' →
                 ∃ u, users db !! k = Some u
                      ∧ (k = b ∧ u' = User.set_connection st pb u
                         ∨ k ≠ b ∧ k = a ∧ u' = User.set_connection st pa u
                         ∨ k ≠ b ∧ k ≠ a ∧ u' = u)).
  { intros k u' Hk. apply lookup_update_user2_Some in Hk as (u & Hu & ->).
    rewrite Hu1 in Hu. exists u. split; [done|].
    destruct (decide (b = k)) as [<-|Hbk]; [left|right].
    - split; [done|]. by destruct (decide (a = b)).
    - destruct (decide (a = k)) as [<-|Hak]; [left|right]; repeat split; congruence. }
  assert (Hrow_b : ∃ v, users (update_user (User.set_connection st pb) b
                            (update_user (User.set_connection st pa) a db1)) !! b = Some v
                        ∧ User.connected_to v = pb).
  { rewrite lookup_update_user2, Hu1, Hub. rewrite decide_True by done.
    destruct (decide (a = b)); simpl; eauto. }
  assert (Hrow_a : a ≠ b →
                   ∃ v, users (update_user (User.set_connection st pb) b
                            (update_user (User.set_connection st pa) a db1)) !! a = Some v
                        ∧ User.connected_to v = pa).
  { intros Hab. rewrite lookup_update_user2, Hu1, Hua.
    destruct (decide (b = a)); [congruence|].
    destruct (decide (a = a)); [|done]. simpl. eauto. }
  split.
  - (* row_ids *)
    intros k u' Hk. destruct (Hrow k u' Hk) as (u & Hu & Hcase).
    pose proof (row_ids db Hc k u Hu).
    destruct Hcase as [(_ & ->)|[(_ & _ & ->)|(_ & _ & ->)]]; done.
  - (* peer_iff_connected *)
    intros k u' Hk. destruct (Hrow k u' Hk) as (u & Hu & Hcase).
    pose proof (peer_iff_connected db Hc k u Hu) as Hiff.
    destruct Hcase as [(_ & ->)|[(_ & _ & ->)|(_ & _ & ->)]]; try done;
      destruct Hst as [(-> & -> & ->)|(-> & -> & ->)]; simpl; split; congruence.
  - (* peer_symmetric *)
    intros k u' j Hk Hj. destruct (Hrow k u' Hk) as (u & Hu & Hcase).
    destruct Hcase as [(-> & ->)|[(Hkb & -> & ->)|(Hkb & Hka & ->)]]; simpl in Hj.
    + destruct Hst as [(_ & Epa & Epb)|(_ & _ & Epb)]; [|congruence].
      assert (j = a) as -> by congruence.
      destruct (decide (a = b)) as [Hab|Hab].
      * destruct Hrow_b as (v & Hv & Pv). exists v. split; congruence.
      * destruct (Hrow_a Hab) as (v & Hv & Pv). exists v. split; [done|]. congruence.
    + destruct Hst as [(_ & Epa & Epb)|(_ & Epa & _)]; [|congruence].
      assert (j = b) as -> by congruence.
      destruct Hrow_b as (v & Hv & Pv). exists v. split; [done|]. congruence.
    + destruct (Hnot k u j Hu Hj) as [Hja Hjb].
      destruct (peer_symmetric db Hc k u j Hu Hj) as (v & Hv & Hvk).
      exists v. split; [|done].
      rewrite lookup_update_user2_other by done. by rewrite Hu1.
  - (* pending_parties *)
    intros rk r k Hr Hp Hk. rewrite !connection_requests_update_user in Hr.
    destruct (Hreq rk r Hr Hp) as [Hne Hr0].
    destruct (Hparty rk r k Hne Hr0 Hp Hk) as [Hka Hkb].
    destruct (pending_parties db Hc rk r k Hr0 Hp Hk) as (u & Hu & Su).
    exists u. split; [|done]. rewrite lookup_update_user2_other by done. by rewrite Hu1.
  - (* pending_has_request *)
    intros k u' Hk Sk. destruct (Hrow k u' Hk) as (u & Hu & Hcase).
    destruct Hcase as [(_ & ->)|[(_ & _ & ->)|(Hkb & Hka & ->)]];
      [simpl in Sk; destruct Hst as [(-> & _)|(-> & _)]; done..|].
    destruct (pending_has_request db Hc k u Hu Sk) as (rk & r & Hr & Hp & Hkr).
    assert (rk ≠ rid).
    { intros ->. rewrite HR in Hr. injection Hr as <-. destruct Hkr; congruence. }
    exists rk, r. split; [|done]. rewrite !connection_requests_update_user.
    unfold db1. simpl. by rewrite lookup_alter_ne.
  - (* one_pending *)
    intros rk1 r1 rk2 r2 H1 H2 P1 P2 Hsh.
    rewrite !connection_requests_update_user in H1, H2.
    destruct (Hreq rk1 r1 H1 P1) as [_ H1'], (Hreq rk2 r2 H2 P2) as [_ H2'].
    by apply (one_pending db Hc rk1 r1 rk2 r2).
Qed.

(** X1.  [acceptConnectionRequest] keeps a coherent store coherent, whether
    it succeeds or fails. *)
Theorem acceptConnectionRequest_keeps_coherent (rid : string) (db : Backend.t) :
  coherent db → coherent (acceptConnectionRequest rid db).2.
Proof.
  intros Hc. unfold acceptConnectionRequest.
  destruct (transaction_cases (acceptConnectionRequest_body rid) db) as [->|Hbody]; [done|].
  revert Hbody. generalize (transaction (acceptConnectionRequest_body rid) db).2.
  intros db'. unfold acceptConnectionRequest_body.
  destruct (select_request_single rid REQUEST_STATES.PENDING db) as [[R|] [e|]] eqn:E;
    simpl; try done.
  intros [= <-]. apply select_request_single_inv in E as [HR Hp].
  apply (coherent_close_request db rid R _ _ CONNECTION_STATES.CONNECTED); auto.
Qed.

(** X2.  [rejectConnectionRequest] keeps a coherent store coherent. *)
Theorem rejectConnectionRequest_keeps_coherent (rid : string) (db : Backend.t) :
  coherent db → coherent (rejectConnectionRequest rid db).2.
Proof.
  intros Hc. unfold rejectConnectionRequest.
  destruct (transaction_cases (rejectConnectionRequest_body rid) db) as [->|Hbody]; [done|].
  revert Hbody. generalize (transaction (rejectConnectionRequest_body rid) db).2.
  intros db'. unfold rejectConnectionRequest_body.
  destruct (select_request_single rid REQUEST_STATES.PENDING db) as [[R|] [e|]] eqn:E;
    simpl; try done.
  intros [= <-]. apply select_request_single_inv in E as [HR Hp].
  apply (coherent_close_request db rid R _ _ CONNECTION_STATES.DISCONNECTED); auto.
Qed.

(** X3.  [disconnectUsers] keeps a coherent store coherent. *)
Theorem disconnectUsers_keeps_coherent (userId : string) (db : Backend.t) :
  coherent db → coherent (disconnectUsers userId db).2.
Proof.
  intros Hc. unfold disconnectUsers.
  destruct (transaction_cases (disconnectUsers_body userId) db) as [->|Hbody]; [done|].
  revert Hbody. generalize (transaction (disconnectUsers_body userId) db).2.
  intros db'. unfold disconnectUsers_body.
  destruct (select_user_single userId CONNECTION_STATES.CONNECTED db) as [[ua|] [e|]] eqn:E;
    simpl; try done.
  apply select_user_single_inv in E as [Hua Sa].
  destruct (User.connected_to ua) as [b|] eqn:Pa; [|done].
  destruct (bool_decide (b = "")); [done|].
  intros [= <-]. set (a := userId) in *.
  destruct (peer_symmetric db Hc a ua b Hua Pa) as (ub & Hub & Pb).
  assert (Sb : User.connection_status ub = CONNECTION_STATES.CONNECTED)
    by (apply (peer_iff_connected db Hc b ub Hub); by rewrite Pb).
  set (reset := User.set_connection CONNECTION_STATES.DISCONNECTED None).
  assert (Hrow : ∀ k u', users (update_user reset b (update_user reset a db)) !! k = Some u' →
                 ∃ u, users db !! k = Some u
                      ∧ ((k = a ∨ k = b) ∧ u' = reset u ∨ k ≠ a ∧ k ≠ b ∧ u' = u)).
  { intros k u' Hk. apply lookup_update_user2_Some in Hk as (u & Hu & ->).
    exists u. split; [done|].
    destruct (decide (b = k)) as [Hbk|Hbk]; destruct (decide (a = k)) as [Hak|Hak];
      simpl; auto. }
  split.
  - intros k u' Hk. destruct (Hrow k u' Hk) as (u & Hu & Hcase).
    pose proof (row_ids db Hc k u Hu). destruct Hcase as [(_ & ->)|(_ & _ & ->)]; done.
  - intros k u' Hk. destruct (Hrow k u' Hk) as (u & Hu & Hcase).
    destruct Hcase as [(_ & ->)|(_ & _ & ->)].
    + simpl. split; congruence.
    + by apply (peer_iff_connected db Hc k u).
  - intros k u' j Hk Hj. destruct (Hrow k u' Hk) as (u & Hu & Hcase).
    destruct Hcase as [(_ & ->)|(Hka & Hkb & ->)]; [done|].
    destruct (peer_symmetric db Hc k u j Hu Hj) as (v & Hv & Hvk).
    exists v. split; [|done]. rewrite lookup_update_user2_other; [done| |].
    + intros ->. rewrite Hua in Hv. congruence.
    + intros ->. rewrite Hub in Hv. congruence.
  - intros rk r k Hr Hp Hk. rewrite !connection_requests_update_user in Hr.
    destruct (pending_parties db Hc rk r k Hr Hp Hk) as (u & Hu & Su).
    exists u. split; [|done]. rewrite lookup_update_user2_other; [done| |].
    + intros ->. rewrite Hua in Hu. congruence.
    + intros ->. rewrite Hub in Hu. congruence.
  - intros k u' Hk Sk. destruct (Hrow k u' Hk) as (u & Hu & Hcase).
    destruct Hcase as [(_ & ->)|(_ & _ & ->)]; [done|].
    rewrite !connection_requests_update_user.
    by apply (pending_has_request db Hc k u).
  - intros rk1 r1 rk2 r2. rewrite !connection_requests_update_user.
    apply (one_pending db Hc).
Qed.

(** The test is sound. *)
Lemma coherentb_sound (db : Backend.t) : coherentb db = true → coherent db.
Proof.
  unfold coherentb. rewrite andb_true_iff, !forallb_forall.
  intros [Husers Hreqs].
  assert (HU : ∀ k u, users db !! k = Some u → coherent_user db (k, u) = true).
  { intros k u Hu. apply Husers, list_elem_of_In, elem_of_map_to_list, Hu. }
  assert (HR : ∀ rk r, connection_requests db !! rk = Some r →
               coherent_request db (rk, r) = true).
  { intros rk r Hr. apply Hreqs, list_elem_of_In, elem_of_map_to_list, Hr. }
  assert (HP : ∀ k, user_pending db k = true →
               ∃ u, users db !! k = Some u
                    ∧ User.connection_status u = CONNECTION_STATES.PENDING).
  { intros k. unfold user_pending. destruct (users db !! k) as [u|]; [|done].
    intros H%bool_decide_eq_true. eauto. }
  split.
  - intros k u Hu. specialize (HU k u Hu). unfold coherent_user in HU.
    rewrite !andb_true_iff in HU. destruct HU as [[[H _] _] _].
    by apply bool_decide_eq_true in H.
  - intros k u Hu. specialize (HU k u Hu). unfold coherent_user in HU.
    rewrite !andb_true_iff in HU. destruct HU as [[[_ H] _] _].
    by apply bool_decide_eq_true in H.
  - intros k u j Hu Hj. specialize (HU k u Hu). unfold coherent_user in HU.
    rewrite !andb_true_iff in HU. destruct HU as [[_ H] _]. rewrite Hj in H.
    destruct (users db !! j) as [v|]; [|done].
    apply bool_decide_eq_true in H. eauto.
  - intros rk r k Hr Hp Hk. specialize (HR rk r Hr). unfold coherent_request in HR.
    simpl in HR. rewrite (bool_decide_eq_true_2 _ Hp) in HR.
    rewrite !andb_true_iff in HR. destruct HR as [[Hf Ht] _].
    destruct Hk as [<-|<-]; by apply HP.
  - intros k u Hu Sk. specialize (HU k u Hu). unfold coherent_user in HU.
    rewrite !andb_true_iff in HU. destruct HU as [_ H].
    rewrite (bool_decide_eq_true_2 _ Sk) in H.
    apply existsb_exists in H as ([rk r] & Hin & H).
    apply list_elem_of_In, elem_of_map_to_list in Hin.
    rewrite andb_true_iff, !bool_decide_eq_true in H. simpl in H.
    exists rk, r. tauto.
  - intros rk1 r1 rk2 r2 H1 H2 P1 P2 Hsh.
    specialize (HR rk1 r1 H1). unfold coherent_request in HR. simpl in HR.
    rewrite (bool_decide_eq_true_2 _ P1) in HR.
    rewrite !andb_true_iff in HR. destruct HR as [_ H].
    rewrite forallb_forall in H.
    specialize (H (rk2, r2)). simpl in H.
    rewrite bool_decide_eq_true_2 in H by done.
    apply (bool_decide_eq_true_1 (rk1 = rk2)), H.
    by apply list_elem_of_In, elem_of_map_to_list.
Qed.

Lemma select_users_in_two db a b l :
  select_users_in [a; b] db = inr l → length l = 2 →
  is_uuid a = true ∧ is_uuid b = true ∧ a ≠ b
  ∧ ∃ ua ub, users db !! a = Some ua ∧ users db !! b = Some ub.
Proof.
  unfold select_users_in. simpl.
  destruct (is_uuid a); simpl; [|done]. destruct (is_uuid b); simpl; [|done].
  intros [= <-].
  destruct (decide_rel elem_of a [b]) as [Hin|Hnin]; simpl.
  - destruct (users db !! b); simpl; lia.
  - intros Hlen. split; [done|]. split; [done|]. split.
    + intros ->. apply Hnin. left.
    + destruct (users db !! a) as [ua|], (users db !! b) as [ub|];
        simpl in Hlen; try lia. eauto.
Qed.

(** X4.  [sendConnectionRequest] keeps a coherent store coherent. *)
Theorem sendConnectionRequest_keeps_coherent (new_id a b : string) (db : Backend.t) :
  coherent db → coherent (sendConnectionRequest new_id a b db).2.
Proof.
  intros Hc. unfold sendConnectionRequest.
  destruct (transaction_cases (sendConnectionRequest_body new_id a b) db) as [->|Hbody];
    [done|].
  revert Hbody. generalize (transaction (sendConnectionRequest_body new_id a b) db).2.
  intros db' Hbody.
  (* the lookup was answered and both rows were found *)
  destruct (select_users_in [a; b] db) as [e|l] eqn:Hsel;
    [by unfold sendConnectionRequest_body in Hbody; rewrite Hsel in Hbody|].
  assert (Hlen : length l = 2).
  { unfold sendConnectionRequest_body in Hbody. rewrite Hsel in Hbody.
    cbn [or_throw] in Hbody.
    destruct (length l =? 2)%nat eqn:E; [|done].
    by apply Nat.eqb_eq in E. }
  destruct (select_users_in_two db a b l Hsel Hlen) as (Va & Vb & Hab & ua & ub & Hua & Hub).
  pose proof (row_ids db Hc a ua Hua) as Ia.
  pose proof (row_ids db Hc b ub Hub) as Ib.
  rewrite (sendConnectionRequest_body_found db new_id a b ua ub Va Vb Hua Ia Hub Ib Hab)
    in Hbody.
  (* the guards passed and the row was inserted *)
  destruct (decide (User.connection_status ua = CONNECTION_STATES.DISCONNECTED)) as [Sa|Sa];
    [rewrite (bool_decide_eq_true_2 _ Sa) in Hbody
    |by rewrite (bool_decide_eq_false_2 _ Sa) in Hbody].
  destruct (decide (User.connection_status ub = CONNECTION_STATES.DISCONNECTED)) as [Sb|Sb];
    [rewrite (bool_decide_eq_true_2 _ Sb) in Hbody
    |by rewrite (bool_decide_eq_false_2 _ Sb) in Hbody].
  simpl in Hbody.
  destruct (0 <? length (select_requests (pending_between a b) db))%nat; [done|].
  unfold insert_request in Hbody.
  destruct (bool_decide (is_Some (connection_requests db !! new_id))) eqn:Hfresh; [done|].
  apply bool_decide_eq_false in Hfresh.
  assert (Hnew : connection_requests db !! new_id = None)
    by (destruct (connection_requests db !! new_id); [exfalso; eauto|done]).
  destruct (bool_decide (is_Some (users db !! a) ∧ is_Some (users db !! b))); [|done].
  destruct (bool_decide (a = b)); [done|].
  destruct (has_request_from_to a b db); [done|].
  simpl in Hbody. injection Hbody as <-.
  set (R := ConnectionRequest.mk new_id a b REQUEST_STATES.PENDING).
  set (db1 := with_requests (insert new_id R) db).
  set (pend := User.set_status CONNECTION_STATES.PENDING).
  assert (Hu1 : users db1 = users db) by done.
  assert (Pa : User.connected_to ua = None)
    by (apply (coherent_no_peer db a ua Hc Hua); by rewrite Sa).
  assert (Pb : User.connected_to ub = None)
    by (apply (coherent_no_peer db b ub Hc Hub); by rewrite Sb).
  assert (Hrow : ∀ k u', users (update_user pend b (update_user pend a db1)) !! k = Some u' →
                 ∃ u, users db !! k = Some u
                      ∧ ((k = a ∨ k = b) ∧ u' = pend u ∨ k ≠ a ∧ k ≠ b ∧ u' = u)).
  { intros k u' Hk. apply lookup_update_user2_Some in Hk as (u & Hu & ->).
    rewrite Hu1 in Hu. exists u. split; [done|].
    destruct (decide (b = k)) as [Hbk|Hbk]; destruct (decide (a = k)) as [Hak|Hak];
      simpl; auto. }
  assert (Hrow' : ∀ k u, users db !! k = Some u →
                  ∃ u', users (update_user pend b (update_user pend a db1)) !! k = Some u'
                        ∧ User.connected_to u' = User.connected_to u
                        ∧ (k = a ∨ k = b → User.connection_status u' = CONNECTION_STATES.PENDING)
                        ∧ (k ≠ a → k ≠ b → u' = u)).
  { intros k u Hu. rewrite lookup_update_user2, Hu1, Hu. simpl. eexists. split; [done|].
    destruct (decide (b = k)) as [Hbk|Hbk]; destruct (decide (a = k)) as [Hak|Hak];
      simpl; repeat split; try done;
      first [intros [?|?]; congruence | intros; congruence]. }
  (* an old pending request has neither [a] nor [b] as a party *)
  assert (Hold : ∀ rk r k, connection_requests db !! rk = Some r →
                 ConnectionRequest.status r = REQUEST_STATES.PENDING → party k r →
                 k ≠ a ∧ k ≠ b).
  { intros rk r k Hr Hp Hk.
    destruct (pending_parties db Hc rk r k Hr Hp Hk) as (u & Hu & Su).
    split; intros ->; rewrite Hu in *; congruence. }
  assert (Hreq : ∀ rk r, connection_requests db1 !! rk = Some r →
                 rk = new_id ∧ r = R ∨ rk ≠ new_id ∧ connection_requests db !! rk = Some r).
  { intros rk r Hr. unfold db1 in Hr. simpl in Hr.
    apply lookup_insert_Some in Hr as [[<- <-]|[? ?]]; auto. }
  split.
  - intros k u' Hk. destruct (Hrow k u' Hk) as (u & Hu & Hcase).
    pose proof (row_ids db Hc k u Hu). destruct Hcase as [(_ & ->)|(_ & _ & ->)]; done.
  - intros k u' Hk. destruct (Hrow k u' Hk) as (u & Hu & Hcase).
    destruct Hcase as [(Hk' & ->)|(_ & _ & ->)].
    + assert (User.connected_to u = None) as Hn
        by (destruct Hk' as [->| ->]; congruence).
      simpl. rewrite Hn. split; congruence.
    + by apply (peer_iff_connected db Hc k u).
  - intros k u' j Hk Hj. destruct (Hrow k u' Hk) as (u & Hu & Hcase).
    assert (Hj' : User.connected_to u = Some j)
      by (destruct Hcase as [(_ & ->)|(_ & _ & ->)]; done).
    destruct (peer_symmetric db Hc k u j Hu Hj') as (v & Hv & Hvk).
    destruct (Hrow' j v Hv) as (v' & Hv' & Pv' & _).
    exists v'. split; [done|]. congruence.
  - intros rk r k Hr Hp Hk. rewrite !connection_requests_update_user in Hr.
    destruct (Hreq rk r Hr) as [[-> ->]|[Hne Hr0]].
    + assert (k = a ∨ k = b) as Hk' by (destruct Hk as [<-|<-]; auto).
      assert (∃ u, users db !! k = Some u) as [u Hu]
        by (destruct Hk' as [->| ->]; eauto).
      destruct (Hrow' k u Hu) as (u' & Hu' & _ & Su' & _). eauto.
    + destruct (Hold rk r k Hr0 Hp Hk) as [Hka Hkb].
      destruct (pending_parties db Hc rk r k Hr0 Hp Hk) as (u & Hu & Su).
      destruct (Hrow' k u Hu) as (u' & Hu' & _ & _ & Heq).
      exists u'. split; [done|]. by rewrite (Heq Hka Hkb).
  - intros k u' Hk Sk. destruct (Hrow k u' Hk) as (u & Hu & Hcase).
    rewrite !connection_requests_update_user.
    destruct Hcase as [(Hk' & ->)|(_ & _ & ->)].
    + exists new_id, R. unfold db1. simpl. rewrite lookup_insert_eq.
      repeat split. unfold party. simpl. destruct Hk'; auto.
    + destruct (pending_has_request db Hc k u Hu Sk) as (rk & r & Hr & Hp & Hkr).
      exists rk, r. split; [|done]. unfold db1. simpl.
      rewrite lookup_insert_ne; [done|]. intros <-. congruence.
  - intros rk1 r1 rk2 r2 H1 H2 P1 P2 Hsh.
    rewrite !connection_requests_update_user in H1, H2.
    destruct (Hreq rk1 r1 H1) as [[-> ->]|[Hne1 H1']];
      destruct (Hreq rk2 r2 H2) as [[-> ->]|[Hne2 H2']]; [done| | |].
    + exfalso. unfold shares_party in Hsh. simpl in Hsh.
      destruct Hsh as [E|[E|[E|E]]].
      * destruct (Hold rk2 r2 a H2' P2) as [Hx Hy]; [left; congruence|done].
      * destruct (Hold rk2 r2 a H2' P2) as [Hx Hy]; [right; congruence|done].
      * destruct (Hold rk2 r2 b H2' P2) as [Hx Hy]; [left; congruence|done].
      * destruct (Hold rk2 r2 b H2' P2) as [Hx Hy]; [right; congruence|done].
    + exfalso. unfold shares_party in Hsh. simpl in Hsh.
      destruct Hsh as [E|[E|[E|E]]].
      * destruct (Hold rk1 r1 a H1' P1) as [Hx Hy]; [left; congruence|done].
      * destruct (Hold rk1 r1 b H1' P1) as [Hx Hy]; [left; congruence|done].
      * destruct (Hold rk1 r1 a H1' P1) as [Hx Hy]; [right; congruence|done].
      * destruct (Hold rk1 r1 b H1' P1) as [Hx Hy]; [right; congruence|done].
    + by apply (one_pending db Hc rk1 r1 rk2 r2).
Qed.

(** X5.  In a coherent store [sendConnectionRequest] never answers that a
    request already exists between the two users: whenever both are found
    disconnected, no pending request names either of them, so the second
    check of the function cannot fire. *)
Theorem sendConnectionRequest_never_reports_duplicate
    (new_id a b : string) (db : Backend.t) :
  coherent db →
  ServiceResult.error (sendConnectionRequest new_id a b db).1
  ≠ Some (literal "A connection request already exists between these users").
Proof.
  intros Hc. unfold sendConnectionRequest, transaction.
  destruct (select_users_in [a; b] db) as [e|found] eqn:Hfound.
  { unfold sendConnectionRequest_body. rewrite Hfound. simpl. discriminate. }
  destruct (length found =? 2)%nat eqn:E.
  2: { unfold sendConnectionRequest_body. rewrite Hfound. cbn [or_throw]. rewrite E.
       simpl. discriminate. }
  apply Nat.eqb_eq in E.
  destruct (select_users_in_two db a b found Hfound E) as (Va & Vb & Hab & ua & ub & Hua & Hub).
  pose proof (row_ids db Hc a ua Hua) as Ia.
  pose proof (row_ids db Hc b ub Hub) as Ib.
  rewrite (sendConnectionRequest_body_found db new_id a b ua ub Va Vb Hua Ia Hub Ib Hab).
  destruct (decide (User.connection_status ua = CONNECTION_STATES.DISCONNECTED)) as [Sa|Sa];
    [rewrite (bool_decide_eq_true_2 _ Sa)
    |rewrite (bool_decide_eq_false_2 _ Sa); simpl; discriminate].
  destruct (decide (User.connection_status ub = CONNECTION_STATES.DISCONNECTED)) as [Sb|Sb];
    [rewrite (bool_decide_eq_true_2 _ Sb)
    |rewrite (bool_decide_eq_false_2 _ Sb); simpl; discriminate].
  cbn [negb].
  assert (Hnone : select_requests (pending_between a b) db = []).
  { destruct (select_requests (pending_between a b) db) as [|r l] eqn:Hsel; [done|].
    exfalso. assert (Hin : r ∈ select_requests (pending_between a b) db)
      by (rewrite Hsel; left).
    apply elem_of_select_requests in Hin as [Hp [rk Hr]].
    unfold pending_between in Hp.
    rewrite !andb_true_iff, !orb_true_iff, !bool_decide_eq_true in Hp.
    destruct Hp as [[Hfrom _] Hpend].
    assert (∃ k, (k = a ∨ k = b) ∧ party k r) as (k & Hk & Hparty)
      by (destruct Hfrom as [Hf|Hf]; [exists a|exists b]; split; auto; by left).
    destruct (pending_parties db Hc rk r k Hr Hpend Hparty) as (u & Hu & Su).
    destruct Hk as [->| ->]; rewrite Hu in *; congruence. }
  rewrite Hnone. cbn [length Nat.ltb Nat.leb].
  unfold or_throw. destruct (insert_request new_id a b REQUEST_STATES.PENDING db) as [e|db'];
    simpl; discriminate.
Qed.

End Coherence.

Section CoherenceRuns.
Import Backend ConnectionService Scenario.

(** X4 at the first request of Alice to Bob. *)
Lemma sendConnectionRequest_keeps_coherent_witness :
  coherent (sendConnectionRequest request_id alice_id bob_id db0).2.
Proof.
  apply sendConnectionRequest_keeps_coherent, coherentb_sound. vm_compute. reflexivity.
Defined.

(** X1 when Bob accepts. *)
Lemma acceptConnectionRequest_keeps_coherent_witness :
  coherent (acceptConnectionRequest request_id db_requested).2.
Proof.
  apply acceptConnectionRequest_keeps_coherent, coherentb_sound. vm_compute. reflexivity.
Defined.

(** X2 when Bob declines. *)
Lemma rejectConnectionRequest_keeps_coherent_witness :
  coherent (rejectConnectionRequest request_id db_requested).2.
Proof.
  apply rejectConnectionRequest_keeps_coherent, coherentb_sound. vm_compute. reflexivity.
Defined.

(** X3 when Alice disconnects. *)
Lemma disconnectUsers_keeps_coherent_witness :
  coherent (disconnectUsers alice_id db_connected).2.
Proof.
  apply disconnectUsers_keeps_coherent, coherentb_sound. vm_compute. reflexivity.
Defined.

(** X5 at the first request of Alice to Bob. *)
Lemma sendConnectionRequest_never_reports_duplicate_witness :
  coherent db0
  ∧ ServiceResult.error (sendConnectionRequest request_id alice_id bob_id db0).1
    ≠ Some (literal "A connection request already exists between these users").
Proof.
  assert (H : coherent db0) by (apply coherentb_sound; vm_compute; reflexivity).
  split; [exact H|].
  exact (sendConnectionRequest_never_reports_duplicate request_id alice_id bob_id db0 H).
Defined.

End CoherenceRuns.

(* ===================================================================== *)
(** * More properties of the connection service and store                 *)
(* ===================================================================== *)

Section ConnectionMore.
Import Backend ConnectionService.

(** X6.  Nobody can send a request to themselves: with the same id on both
    sides the lookup of the two users finds at most one row, the call fails
    with the not-found message (for an id that is no UUID, with the message
    of the store that refuses the lookup) and the store is unchanged. *)
Theorem sendConnectionRequest_to_oneself (new_id a : string) (db : Backend.t) :
  sendConnectionRequest new_id a a db
  = (ServiceResult.mk false
       (Some (if is_uuid a then literal "One or both users not found"
              else store_message (invalid_uuid a))), db).
Proof.
  unfold sendConnectionRequest, transaction, sendConnectionRequest_body.
  destruct (is_uuid a) eqn:Va.
  - rewrite select_users_in_uuids by done. cbn [or_throw].
    assert (Hlen : length (omap (λ k, users db !! k) (remove_dups [a; a])) ≠ 2).
    { simpl. destruct (decide_rel elem_of a [a]) as [_|Hn]; [|exfalso; apply Hn; left].
      simpl. destruct (users db !! a); simpl; lia. }
    destruct (length _ =? 2)%nat eqn:E; [|done].
    by apply Nat.eqb_eq in E.
  - unfold select_users_in. simpl. by rewrite Va.
Qed.

(** X7.  [getConnectedUser] of the service: for a connected user whose peer
    has a row the answer is that row, without error; for a user whose row is
    not in the connected state the lookup fails and the answer is an error,
    not an empty result. *)
Theorem getConnectedUser_answers (k : string) (u : User.t) (db : Backend.t) :
  users db !! k = Some u →
  (∀ j v, User.connection_status u = CONNECTION_STATES.CONNECTED →
          User.connected_to u = Some j → j ≠ "" → users db !! j = Some v →
          getConnectedUser k db = (Some v, None))
  ∧ (User.connection_status u ≠ CONNECTION_STATES.CONNECTED →
     getConnectedUser k db = (None, Some (store_message not_single_row))).
Proof.
  intros Hu. split.
  - intros j v Su Pu Hj Hv. unfold getConnectedUser.
    rewrite (select_user_single_hit db k _ u Hu Su), Pu.
    rewrite (bool_decide_eq_false_2 _ Hj), Hv. done.
  - intros Su. unfold getConnectedUser.
    rewrite select_user_single_miss; [done|].
    intros u' Hu'. rewrite Hu in Hu'. by injection Hu' as <-.
Qed.

(** X8.  After a pending request from [a] to [b] is accepted, each party's
    refresh of its connection store shows it connected, with the other
    party's row as the connected user; so does the realtime callback for the
    update of its row. *)
Theorem accept_then_refresh
    (db : Backend.t) (rid a b : string) (R : ConnectionRequest.t) (ua ub : User.t)
    (sa sb : ConnectionStore.t) :
  connection_requests db !! rid = Some R →
  ConnectionRequest.status R = REQUEST_STATES.PENDING →
  ConnectionRequest.from_user R = a →
  ConnectionRequest.to_user R = b →
  a ≠ b → a ≠ "" → b ≠ "" →
  users db !! a = Some ua →
  users db !! b = Some ub →
  let db' := (acceptConnectionRequest rid db).2 in
  let ua' := User.set_connection CONNECTION_STATES.CONNECTED (Some b) ua in
  let ub' := User.set_connection CONNECTION_STATES.CONNECTED (Some a) ub in
  let ra := ConnectionStore.getConnectedUser a sa db' in
  let rb := ConnectionStore.getConnectedUser b sb db' in
  ConnectionStore.connectionStatus ra = Some CONNECTION_STATES.CONNECTED
  ∧ ConnectionStore.connectedUser ra = Some ub'
  ∧ ConnectionStore.connectionStatus rb = Some CONNECTION_STATES.CONNECTED
  ∧ ConnectionStore.connectedUser rb = Some ua'
  ∧ ConnectionStore.connectedUser (ConnectionStore.onUserUpdate a ua' sa db') = Some ub'
  ∧ ConnectionStore.connectedUser (ConnectionStore.onUserUpdate b ub' sb db') = Some ua'.
Proof.
  intros HR Hp Hfrom Hto Hab Hna Hnb Hua Hub db' ua' ub' ra rb.
  assert (Hdb' : users db' !! a = Some ua' ∧ users db' !! b = Some ub').
  { unfold db', acceptConnectionRequest, transaction, acceptConnectionRequest_body.
    rewrite (select_request_single_hit db rid _ R HR Hp). simpl.
    rewrite Hfrom, Hto. split.
    - rewrite lookup_alter_ne by done. by rewrite lookup_alter_eq, Hua.
    - rewrite lookup_alter_eq, lookup_alter_ne by done. by rewrite Hub. }
  destruct Hdb' as [Ha' Hb'].
  assert (Ga : getConnectedUser a db' = (Some ub', None)).
  { unfold getConnectedUser.
    rewrite (select_user_single_hit db' a CONNECTION_STATES.CONNECTED ua' Ha' eq_refl). simpl.
    rewrite (bool_decide_eq_false_2 _ Hnb), Hb'. done. }
  assert (Gb : getConnectedUser b db' = (Some ua', None)).
  { unfold getConnectedUser.
    rewrite (select_user_single_hit db' b CONNECTION_STATES.CONNECTED ub' Hb' eq_refl). simpl.
    rewrite (bool_decide_eq_false_2 _ Hna), Ha'. done. }
  unfold ra, rb, ConnectionStore.getConnectedUser, ConnectionStore.onUserUpdate.
  rewrite Ha', Hb', Ga, Gb. simpl.
  rewrite (bool_decide_eq_false_2 _ Hna), (bool_decide_eq_false_2 _ Hnb). done.
Qed.

End ConnectionMore.

(* ===================================================================== *)
(** * More properties of the message store                                *)
(* ===================================================================== *)

Section MessageMore.
Import MessageService MessageStore MessageStoreActions.

(** X9.  [markAllAsRead] is idempotent: a second call, at whatever later
    time, changes neither the window nor the store, so a message that was
    marked read keeps its first [read_at]. *)
Theorem markAllAsRead_idempotent
    (fromUserId : string) (t1 t2 : N) (user : option User.t)
    (s : MessageStore.t) (db : Backend.t) :
  let once := markAllAsRead fromUserId t1 user s db in
  markAllAsRead fromUserId t2 user once.1 once.2 = once.
Proof.
  unfold markAllAsRead. destruct user as [u|]; [|done].
  destruct (bool_decide (User.id u = "")); [done|]. simpl. f_equal.
  - unfold set_messages. simpl. f_equal. rewrite map_map. apply map_ext.
    intros msg. destruct (bool_decide (Message.from_user (row msg) = fromUserId)) eqn:E1;
      destruct (bool_decide (Message.read_at (row msg) = None)) eqn:E2; simpl;
      rewrite ?E1, ?E2; done.
  - unfold Backend.update_messages_where, Backend.with_messages. simpl. f_equal.
    rewrite <- map_fmap_compose. apply map_fmap_ext. intros k m _. simpl.
    destruct (bool_decide (Message.from_user m = fromUserId)) eqn:E1;
      destruct (bool_decide (Message.to_user m = User.id u)) eqn:E2;
      destruct (bool_decide (Message.read_at m = None)) eqn:E3; simpl;
      rewrite ?E1, ?E2, ?E3; done.
Qed.

(** X10.  [retryFailedMessage] on a failed message always removes it from the
    window.  When there is no signed-in user or no connected user, the new
    send records nothing, so the typed text is dropped: the window is the old
    one without the failed message, and device and store are untouched. *)
Theorem retryFailedMessage_removes_failed
    (tempId : string) (clock : nat → N) (user peer : option User.t)
    (s : MessageStore.t) (dev : Device) (db : Backend.t) (msg : LocalMessage) :
  find (λ m, bool_decide (Message.id (row m) = tempId)) (messages s) = Some msg →
  localStatus msg = Some failed →
  let res := retryFailedMessage tempId clock user peer s dev db in
  Forall (λ m, Message.id (row m) ≠ tempId) (messages res.1.1)
  ∧ (user = None ∨ peer = None →
     messages res.1.1 = filter (λ m, Message.id (row m) ≠ tempId) (messages s)
     ∧ res.1.2 = dev ∧ res.2 = db).
Proof.
  intros Hfind Hfailed res. unfold res, retryFailedMessage.
  rewrite Hfind, (bool_decide_eq_true_2 _ Hfailed). simpl. split.
  - destruct (sendMessage _ clock user peer s dev db) as [[s' dev'] db']. simpl.
    apply Forall_forall. intros m Hm. by apply list_elem_of_filter in Hm as [? _].
  - intros Hnone. unfold sendMessage.
    destruct Hnone as [->| ->]; [|destruct user]; done.
Qed.

(** X11.  A draft is read back as written, drafts of other partners are not
    affected, and the draft survives [resetStore]: the reset empties the
    drafts of the store, and restoring from the device brings the text
    back. *)
Theorem draft_survives_reset
    (partnerId other draft : string) (s : MessageStore.t) (dev : Device) :
  let saved := setDraft partnerId draft s dev in
  getDraft partnerId saved.1 = draft
  ∧ (other ≠ partnerId → getDraft other saved.1 = getDraft other s)
  ∧ getDraft partnerId (resetStore saved.1) = ""
  ∧ getDraft partnerId (restoreDraft partnerId (resetStore saved.1) saved.2) = draft.
Proof.
  unfold getDraft, setDraft, restoreDraft. simpl. repeat split.
  - by rewrite lookup_insert_eq.
  - intros Hne. by rewrite lookup_insert_ne.
  - rewrite lookup_insert_eq. simpl. by rewrite lookup_insert_eq.
Qed.

(** X12.  [sendMessage] and [loadMessages] never leave their busy flag set,
    whatever the inputs and whatever the store answers. *)
Theorem busy_flags_are_released
    (content : string) (clock : nat → N) (user peer : option User.t)
    (userId partnerId : string) (refresh : bool) (fetched : HistoryResult) (now : N)
    (s : MessageStore.t) (dev : Device) (db : Backend.t) :
  isSendingMessage (sendMessage content clock user peer s dev db).1.1 = false
  ∧ isLoadingMessages
      (loadMessages userId partnerId refresh fetched now user s dev db).1.1 = false.
Proof.
  split.
  - unfold sendMessage. destruct user as [u|], peer as [p|]; try done.
    destruct (_ || _); [done|].
    destruct (negb _); [done|].
    unfold sendMessage_optimistic.
    destruct (MessageService.sendMessage _ _ _ _ _) as [r db'].
    unfold sendMessage_settle. by destruct (send_success r), (send_data r).
  - unfold loadMessages.
    destruct (history_success fetched), (history_data fetched) as [data|]; try done.
    unfold trim_window. simpl.
    destruct (0 <? _)%nat; [|done].
    unfold markAllAsRead. destruct user as [u|]; [|done].
    by destruct (bool_decide (User.id u = "")).
Qed.

End MessageMore.

Section OfflineRoundTrip.
Import MessageService MessageStore MessageStoreActions.

Lemma insert_message_accepted a b content now db k rest ua ub :
  Backend.insert_replies db = Some k :: rest →
  Backend.messages db !! k = None →
  Backend.users db !! a = Some ua → Backend.users db !! b = Some ub → a ≠ b →
  Backend.insert_message a b content now db
  = (Backend.with_messages (insert k (Message.mk k a b content None now))
       (Backend.mk (Backend.users db) (Backend.connection_requests db)
                   (Backend.messages db) rest),
     inr (Message.mk k a b content None now)).
Proof.
  intros Hr Hk Ha Hb Hab. unfold Backend.insert_message. rewrite Hr.
  rewrite bool_decide_eq_false_2 by (rewrite Hk; apply is_Some_None).
  rewrite bool_decide_eq_true_2 by (rewrite Ha, Hb; eauto).
  by rewrite (bool_decide_eq_false_2 _ Hab).
Qed.

(** X13.  A valid text typed while offline reaches the store when the queue
    is drained: sending offline writes nothing to the store and puts one
    entry into the empty queue; the drain, answered by the store with a new
    key, stores one row from the user to the peer with the trimmed text and
    clears the queue.  The window keeps the optimistic message as it was. *)
Theorem offline_message_is_delivered_by_drain
    (u p ua up : User.t) (content : string) (clock clock' : nat → N)
    (s : MessageStore.t) (dev : Device) (db : Backend.t) (k : string)
    (rest : list (option string)) :
  isOnline s = false →
  User.id u ≠ "" → User.id p ≠ "" → User.id u ≠ User.id p →
  trim content ≠ "" → String.length content ≤ 500 →
  getOfflineMessageQueue (localStorage dev) = [] →
  Backend.users db !! User.id u = Some ua →
  Backend.users db !! User.id p = Some up →
  Backend.insert_replies db = Some k :: rest →
  Backend.messages db !! k = None →
  let sent := MessageStore.sendMessage content clock (Some u) (Some p) s dev db in
  let drained := processOfflineQueue clock' (Some u) sent.1.2 sent.2 in
  sent.2 = db
  ∧ localStorage sent.1.2 = Some [mkEntry (User.id p) content (clock 0)]
  ∧ messages sent.1.1
    = optimisticMessage (offline_id (clock 1)) (User.id u) (User.id p) content (clock 2)
      :: messages s
  ∧ getOfflineMessageQueue (localStorage drained.1) = []
  ∧ Backend.messages drained.2 !! k
    = Some (Message.mk k (User.id u) (User.id p) (trim content) None (clock' 0))
  ∧ (∀ k', k' ≠ k → Backend.messages drained.2 !! k' = Backend.messages db !! k').
Proof.
  intros Hoff Hu Hp Hup Hne Hlen Hq Hua Hupr Hrep Hk sent drained.
  destruct (messages_setTypingStatus false (Some u) (Some p)
              (set_error None (set_sending true s))) as [Hm0 Ho0].
  change (messages (set_error None (set_sending true s))) with (messages s) in Hm0.
  change (isOnline (set_error None (set_sending true s))) with (isOnline s) in Ho0.
  assert (Hsent : sent =
    (set_sending false
       (set_messages
          (optimisticMessage (offline_id (clock 1)) (User.id u) (User.id p) content (clock 2)
           :: messages s)
          (setTypingStatus false (Some u) (Some p) (set_error None (set_sending true s)))),
     mkDevice (asyncStorage dev) (Some [mkEntry (User.id p) content (clock 0)]),
     db)).
  { unfold sent, MessageStore.sendMessage.
    rewrite (bool_decide_eq_false_2 _ Hu), (bool_decide_eq_false_2 _ Hp).
    cbn [orb]. rewrite Ho0, Hoff. cbn [negb]. rewrite Hm0.
    unfold addToOfflineQueue. rewrite Hq. done. }
  assert (Hsend : MessageService.sendMessage (User.id u) (User.id p) content (clock' 0) db
    = (mkSend true (Some (Message.mk k (User.id u) (User.id p) (trim content) None (clock' 0)))
              None,
       Backend.with_messages
         (insert k (Message.mk k (User.id u) (User.id p) (trim content) None (clock' 0)))
         (Backend.mk (Backend.users db) (Backend.connection_requests db)
                     (Backend.messages db) rest))).
  { unfold MessageService.sendMessage. rewrite (bool_decide_eq_false_2 _ Hne).
    destruct (500 <? String.length content)%nat eqn:E; [apply Nat.ltb_lt in E; lia|].
    by rewrite (insert_message_accepted _ _ _ _ db k rest ua up Hrep Hk Hua Hupr Hup). }
  assert (Hdrain : MessageService.processOfflineQueue (User.id u) clock'
                     (Some [mkEntry (User.id p) content (clock 0)]) db
    = (ServiceResult.mk true None, None,
       [(mkEntry (User.id p) content (clock 0), true)],
       Backend.with_messages
         (insert k (Message.mk k (User.id u) (User.id p) (trim content) None (clock' 0)))
         (Backend.mk (Backend.users db) (Backend.connection_requests db)
                     (Backend.messages db) rest))).
  { unfold MessageService.processOfflineQueue.
    cbn -[MessageService.sendMessage]. by rewrite Hsend. }
  unfold drained. rewrite Hsent. unfold processOfflineQueue.
  rewrite (bool_decide_eq_false_2 _ Hu).
  cbn [fst snd localStorage]. rewrite Hdrain.
  cbn [fst snd localStorage messages set_sending set_messages getOfflineMessageQueue].
  repeat split.
  - cbn. by rewrite lookup_insert_eq.
  - intros k' Hk'. cbn. by rewrite lookup_insert_ne.
Qed.

End OfflineRoundTrip.

(* ===================================================================== *)
(** * The keys of the durable storage                                      *)
(* ===================================================================== *)

Section StorageKeys.
Import MessageStore MessageStoreActions.

Lemma append_inj_r (s a b : string) : s +:+ a = s +:+ b → a = b.
Proof. induction s as [|c s IH]; simpl; [done|]. intros [= H]. auto. Qed.

Lemma append_same_length (u1 u2 r1 r2 : string) :
  String.length u1 = String.length u2 → u1 +:+ r1 = u2 +:+ r2 → u1 = u2 ∧ r1 = r2.
Proof.
  revert u2. induction u1 as [|c u1 IH]; intros [|c2 u2]; simpl; try done.
  intros [= Hlen] [= -> Hrest]. destruct (IH u2 Hlen Hrest) as [-> ->]. done.
Qed.

(** X14.  For user ids of one length, as UUIDs are, the key under which the
    messages of a conversation are cached determines the conversation; and a
    draft is never stored under the key of a message cache. *)
Theorem messages_key_determines_pair (u1 p1 u2 p2 : string) :
  String.length u1 = String.length u2 →
  (messages_key u1 p1 = messages_key u2 p2 → u1 = u2 ∧ p1 = p2)
  ∧ draft_key p1 ≠ messages_key u2 p2.
Proof.
  intros Hlen. split; [|done].
  unfold messages_key. intros H.
  apply append_inj_r in H. apply append_same_length in H as [-> H]; [|done].
  apply append_inj_r in H. done.
Qed.

(** X14 at two ids of one letter. *)
Lemma messages_key_witness :
  String.length "a" = String.length "c"
  ∧ messages_key "a" "b" ≠ messages_key "c" "b"
  ∧ draft_key "b" ≠ messages_key "c" "b".
Proof.
  split; [reflexivity|].
  destruct (messages_key_determines_pair "a" "b" "c" "b") as [H1 H2]; [reflexivity|].
  split; [|exact H2].
  intros E. destruct (H1 E) as [Hac _]. discriminate Hac.
Defined.

(** Ids of different lengths that contain the separator can share a key. *)
Example messages_key_collision : messages_key "a-b" "c" = messages_key "a" "b-c".
Proof. reflexivity. Qed.

End StorageKeys.

(* ===================================================================== *)
(** * Properties of the user service and of the search screen              *)
(* ===================================================================== *)

Section UserAndSearch.
Import Backend.

Lemma formatUsername_idempotent (username : string) :
  UserService.formatUsername (UserService.formatUsername username)
  = UserService.formatUsername username.
Proof.
  unfold UserService.formatUsername.
  destruct username as [|c rest]; [done|].
  destruct c as [[] [] [] [] [] [] [] []]; done.
Qed.

(** X15.  [checkUsernameAvailability] answers "available" exactly when no
    user row carries the name in its [@] form, and gives the same answer
    whether the name is passed with or without the [@]. *)
Theorem checkUsernameAvailability_spec (username : string) (db : Backend.t) :
  (UserService.available (UserService.checkUsernameAvailability username db) = true
   ↔ ∀ k u, users db !! k = Some u →
            User.username u ≠ UserService.formatUsername username)
  ∧ UserService.checkUsernameAvailability (UserService.formatUsername username) db
    = UserService.checkUsernameAvailability username db.
Proof.
  split.
  - unfold UserService.checkUsernameAvailability.
    set (name := UserService.formatUsername username).
    set (rows := filter (λ u, User.username u = name) (map_to_list (users db)).*2).
    assert (Hrows : ∀ u, u ∈ rows ↔ User.username u = name ∧ ∃ k, users db !! k = Some u).
    { intros u. unfold rows. rewrite list_elem_of_filter, list_elem_of_fmap. split.
      - intros [Hn [[k u'] [-> Hin]]]. apply elem_of_map_to_list in Hin. eauto.
      - intros [Hn [k Hk]]. split; [done|]. exists (k, u). split; [done|].
        by apply elem_of_map_to_list. }
    split.
    + intros Hav k u Hu Hname.
      assert (u ∈ rows) as Hin by (apply Hrows; eauto).
      destruct rows as [|r1 [|r2 rows']]; simpl in Hav; try done.
      by apply elem_of_nil in Hin.
    + intros Hnone. destruct rows as [|r1 rows']; [done|].
      exfalso. assert (r1 ∈ r1 :: rows') as Hin by left.
      apply Hrows in Hin as [Hn [k Hk]]. by apply (Hnone k r1).
  - unfold UserService.checkUsernameAvailability.
    by rewrite formatUsername_idempotent.
Qed.

(** X16.  On the list [getConnectionRequests] returns for a user, the search
    screen's [getPendingRequestStatus] is [null] for another user exactly
    when the table holds no request between the two, whatever the status of
    the requests: an accepted or rejected request is reported like a pending
    one. *)
Theorem getPendingRequestStatus_spec (me other : string) (db : Backend.t) :
  SearchScreen.getPendingRequestStatus (Some me)
    (default [] (ConnectionService.getConnectionRequests me db).1) other = None
  ↔ ∀ k r, connection_requests db !! k = Some r → ¬ between me other r.
Proof.
  unfold ConnectionService.getConnectionRequests. simpl.
  set (p := λ r, bool_decide (ConnectionRequest.from_user r = me)
                 || bool_decide (ConnectionRequest.to_user r = me)).
  set (q := λ req : ConnectionRequest.t,
              (bool_decide (Some (ConnectionRequest.from_user req) = Some me)
               && bool_decide (ConnectionRequest.to_user req = other))
              || (bool_decide (ConnectionRequest.from_user req = other)
                  && bool_decide (Some (ConnectionRequest.to_user req) = Some me))).
  assert (Hq : ∀ r, q r = true ↔ between me other r).
  { intros r. unfold q, between.
    rewrite orb_true_iff, !andb_true_iff, !bool_decide_eq_true.
    split; intros [[H1 H2]|[H1 H2]]; [left|right|left|right]; split; congruence. }
  assert (Hp : ∀ r, between me other r → p r = true).
  { intros r Hb. unfold p. rewrite orb_true_iff, !bool_decide_eq_true.
    destruct Hb as [[? ?]|[? ?]]; auto. }
  unfold SearchScreen.getPendingRequestStatus. fold q.
  split.
  - intros Hnone k r Hk Hb.
    assert (Hin : r ∈ select_requests p db) by (apply elem_of_select_requests; eauto).
    destruct (select_requests p db) as [|r0 l] eqn:E; [by apply elem_of_nil in Hin|].
    cbn [length Nat.eqb] in Hnone.
    destruct (find q (r0 :: l)) as [x|] eqn:F; [done|].
    apply list_elem_of_In in Hin.
    pose proof (find_none q (r0 :: l) F r Hin) as Hf.
    apply Hq in Hb. congruence.
  - intros Hnone.
    destruct (length (select_requests p db) =? 0)%nat; [done|].
    destruct (find q (select_requests p db)) as [x|] eqn:F; [|done].
    exfalso. apply find_some in F as [Hin Hx].
    apply list_elem_of_In, elem_of_select_requests in Hin as [_ [k Hk]].
    apply Hq in Hx. by apply (Hnone k x).
Qed.

End UserAndSearch.

(* ===================================================================== *)
(** * What [sendMessage] of the service stores                             *)
(* ===================================================================== *)

Section StoredContent.
Import MessageService.

Lemma append_cons (x : ascii) (a b : string) : String x a +:+ b = String x (a +:+ b).
Proof. reflexivity. Qed.

Lemma append_assoc (a b c : string) : (a +:+ b) +:+ c = a +:+ (b +:+ c).
Proof. induction a as [|x a IH]; [done|]. by rewrite !append_cons, IH. Qed.

Lemma append_empty_r (a : string) : a +:+ "" = a.
Proof. induction a as [|x a IH]; [done|]. by rewrite append_cons, IH. Qed.

Lemma length_append (a b : string) :
  String.length (a +:+ b) = String.length a + String.length b.
Proof. induction a as [|x a IH]; [done|]. rewrite append_cons. simpl. by rewrite IH. Qed.

Lemma rev_app_append (s1 s2 : string) : String.rev_app s1 s2 = String.rev s1 +:+ s2.
Proof.
  unfold String.rev. revert s2. induction s1 as [|x s1 IH]; intros s2; simpl; [done|].
  rewrite (IH (String x s2)), (IH (String x "")), append_assoc. done.
Qed.

Lemma rev_cons (x : ascii) (s : string) :
  String.rev (String x s) = String.rev s +:+ String x "".
Proof. exact (rev_app_append s (String x "")). Qed.

Lemma rev_append (a b : string) : String.rev (a +:+ b) = String.rev b +:+ String.rev a.
Proof.
  induction a as [|x a IH].
  - change ("" +:+ b) with b. change (String.rev "") with "". by rewrite append_empty_r.
  - by rewrite append_cons, !rev_cons, IH, append_assoc.
Qed.

Lemma rev_involutive (s : string) : String.rev (String.rev s) = s.
Proof.
  induction s as [|x s IH]; [done|].
  rewrite rev_cons, rev_append, IH. reflexivity.
Qed.

Lemma length_rev (s : string) : String.length (String.rev s) = String.length s.
Proof.
  induction s as [|x s IH]; [done|].
  rewrite rev_cons, length_append, IH. simpl. lia.
Qed.

Lemma trimStart_no_leading_space (s : string) : no_leading_space (trimStart s).
Proof.
  induction s as [|c s IH]; simpl; [done|].
  destruct (is_space c) eqn:E; [done|]. simpl. done.
Qed.

Lemma trimStart_fixed (s : string) : no_leading_space s → trimStart s = s.
Proof. destruct s as [|c s]; simpl; [done|]. by intros ->. Qed.

Lemma trimStart_suffix (s : string) : ∃ w, s = w +:+ trimStart s.
Proof.
  induction s as [|c s [w IH]]; simpl; [by exists ""|].
  destruct (is_space c).
  - exists (String c w). by rewrite append_cons, <- IH.
  - by exists "".
Qed.

Lemma length_trimStart (s : string) : String.length (trimStart s) ≤ String.length s.
Proof.
  destruct (trimStart_suffix s) as [w Hw]. rewrite Hw at 2. rewrite length_append. lia.
Qed.

(** Removing white space at the end keeps the start. *)
Lemma no_leading_space_trimEnd (s : string) :
  no_leading_space s → no_leading_space (String.rev (trimStart (String.rev s))).
Proof.
  intros Hs. destruct (trimStart_suffix (String.rev s)) as [w Hw].
  assert (Hsplit : s = String.rev (trimStart (String.rev s)) +:+ String.rev w).
  { rewrite <- rev_append, <- Hw. by rewrite rev_involutive. }
  destruct (String.rev (trimStart (String.rev s))) as [|c m]; [done|].
  rewrite Hsplit in Hs. done.
Qed.

Lemma trim_idempotent (s : string) : trim (trim s) = trim s.
Proof.
  unfold trim at 1.
  assert (H1 : no_leading_space (trim s)).
  { unfold trim. apply no_leading_space_trimEnd, trimStart_no_leading_space. }
  rewrite (trimStart_fixed _ H1).
  assert (H2 : no_leading_space (String.rev (trim s))).
  { unfold trim. rewrite rev_involutive. apply trimStart_no_leading_space. }
  rewrite (trimStart_fixed _ H2). apply rev_involutive.
Qed.

Lemma length_trim (s : string) : String.length (trim s) ≤ String.length s.
Proof.
  unfold trim. rewrite length_rev.
  etrans; [apply length_trimStart|]. rewrite length_rev. apply length_trimStart.
Qed.

(** X17.  When [sendMessage] succeeds, the row it returns is the row now
    stored under its key: from the sender to a different recipient, unread,
    with the trimmed text as content.  That content has no white space left
    at either end and between 1 and 500 characters.  When [sendMessage] fails,
    the messages table is unchanged. *)
Theorem sendMessage_stores_trimmed_content
    (fromUserId toUserId content : string) (now : N) (db : Backend.t) :
  let res := MessageService.sendMessage fromUserId toUserId content now db in
  if send_success res.1 then
    ∃ row, send_data res.1 = Some row
           ∧ Backend.messages res.2 !! Message.id row = Some row
           ∧ Message.from_user row = fromUserId
           ∧ Message.to_user row = toUserId
           ∧ fromUserId ≠ toUserId
           ∧ Message.read_at row = None
           ∧ Message.content row = trim content
           ∧ trim (Message.content row) = Message.content row
           ∧ 1 ≤ String.length (Message.content row) ≤ 500
  else Backend.messages res.2 = Backend.messages db.
Proof.
  unfold MessageService.sendMessage.
  destruct (bool_decide (trim content = "")) eqn:Hblank; [done|].
  apply bool_decide_eq_false in Hblank.
  destruct (500 <? String.length content)%nat eqn:Hlen; [done|].
  apply Nat.ltb_ge in Hlen.
  unfold Backend.insert_message.
  destruct (Backend.insert_replies db) as [|[k|] rest]; [done| |done].
  destruct (bool_decide (is_Some (Backend.messages db !! k))); [done|].
  destruct (bool_decide (is_Some _ ∧ is_Some _)); [|done].
  destruct (bool_decide (fromUserId = toUserId)) eqn:Hself; [done|].
  apply bool_decide_eq_false in Hself. simpl.
  eexists. split; [done|]. simpl. rewrite lookup_insert_eq.
  repeat split; try done.
  - apply trim_idempotent.
  - destruct (trim content); [done|]. simpl. lia.
  - pose proof (length_trim content). lia.
Qed.

End StoredContent.

(* ===================================================================== *)
(** * Message history and pagination                                       *)
(* ===================================================================== *)

Section Pagination.
Import MessageStore MessageHistory MessageStoreActions.

#[local] Instance newer_total : Total newer.
Proof. intros m1 m2. unfold newer. lia. Qed.

#[local] Instance newer_trans : Transitive newer.
Proof. intros m1 m2 m3. unfold newer. lia. Qed.

Lemma elem_of_conversation userId partnerId db m :
  m ∈ conversation userId partnerId db
  ↔ in_conversation userId partnerId m ∧ ∃ k, Backend.messages db !! k = Some m.
Proof.
  unfold conversation. rewrite merge_sort_Permutation.
  rewrite list_elem_of_filter, list_elem_of_fmap. split.
  - intros [Hc [[k m'] [-> Hin]]]. apply elem_of_map_to_list in Hin. eauto.
  - intros [Hc [k Hk]]. split; [done|]. exists (k, m). split; [done|].
    by apply elem_of_map_to_list.
Qed.

(** X18.  A page of [getMessageHistory] has at most [limit] messages, all of
    them rows of the table that belong to the conversation of the two users,
    ordered newest first. *)
Theorem getMessageHistory_page (userId partnerId : string) (offset limit : nat)
    (db : Backend.t) :
  ∃ page,
    getMessageHistory userId partnerId offset limit db = mkHistory true (Some page) None
    ∧ length page ≤ limit
    ∧ (∀ m, m ∈ page →
         in_conversation userId partnerId m ∧ ∃ k, Backend.messages db !! k = Some m)
    ∧ StronglySorted newer page.
Proof.
  eexists. split; [reflexivity|]. split; [rewrite length_take; lia|]. split.
  - intros m Hm. apply elem_of_conversation.
    by apply (subseteq_drop offset), (subseteq_take limit).
  - pose proof (StronglySorted_merge_sort newer
      (filter (in_conversation userId partnerId) (map_to_list (Backend.messages db)).*2)) as H.
    fold (conversation userId partnerId db) in H.
    rewrite <- (take_drop offset (conversation userId partnerId db)) in H.
    apply StronglySorted_app_1_r in H.
    rewrite <- (take_drop limit (drop offset _)) in H.
    by apply StronglySorted_app_1_l in H.
Qed.

(** X19.  Pagination leaves no gap and makes no repeat: if the window holds
    the first [n] pages of the conversation, page [n - 1] being the current
    one, and more pages are expected, then [loadMoreMessages] makes it hold
    the first [n + 1] pages, as long as that is within the 200 messages the
    window keeps, and moves the current page on by one. *)
Theorem loadMoreMessages_appends_next_page
    (userId partnerId : string) (n : nat) (s : MessageStore.t) (dev : Device)
    (db : Backend.t) :
  isLoadingMore s = false → hasMoreMessages s = true →
  currentPage s = n →
  messages s = of_row <$> take (S n * messagesPerPage s) (conversation userId partnerId db) →
  S (S n) * messagesPerPage s ≤ 200 →
  let s' := (loadMoreMessages_fetching userId partnerId s dev db).1 in
  messages s' = of_row <$> take (S (S n) * messagesPerPage s)
                                (conversation userId partnerId db)
  ∧ currentPage s' = S n
  ∧ messagesPerPage s' = messagesPerPage s
  ∧ isLoadingMore s' = false.
Proof.
  intros Hl Hm Hp Hw Hcap s'.
  set (L := messagesPerPage s) in *. set (H := conversation userId partnerId db) in *.
  unfold s', loadMoreMessages_fetching, loadMoreMessages, getMessageHistory.
  rewrite Hl, Hm, Hp. cbn [orb negb history_success history_data].
  change (messages (set_loadingMore true s)) with (messages s).
  change (messagesPerPage (set_loadingMore true s)) with L.
  fold H. rewrite Hw.
  destruct (trim_window_spec
              ((of_row <$> take (S n * L) H) ++ (of_row <$> take L (drop (S n * L) H))))
    as (Ht & _).
  destruct (trim_window _) as [trimmed cached]. cbn [fst] in Ht. subst trimmed.
  cbn [fst messages set_loadingMore set_page set_messages currentPage messagesPerPage
       isLoadingMore].
  split; [|by rewrite Hp].
  rewrite <- fmap_app, take_take_drop.
  replace (S n * L + L) with (S (S n) * L) by lia.
  rewrite length_fmap, length_take.
  replace (_ `min` _ - 200) with 0 by lia.
  done.
Qed.

End Pagination.

(* ===================================================================== *)
(** * Concrete runs of the further properties                              *)
(* ===================================================================== *)

Section MoreRuns.
Import Backend ConnectionService MessageService MessageStore MessageHistory
       MessageStoreActions Scenario.

(** X7 for Alice, connected to Bob. *)
Lemma getConnectedUser_answers_witness :
  users db_connected !! alice_id = Some alice_connected
  ∧ getConnectedUser alice_id db_connected = (Some bob_connected, None).
Proof.
  split; [vm_compute; reflexivity|].
  destruct (getConnectedUser_answers alice_id alice_connected db_connected) as [H _];
    [vm_compute; reflexivity|].
  apply (H bob_id bob_connected);
    [reflexivity | reflexivity | discriminate | vm_compute; reflexivity].
Defined.

(** X8 when Bob accepts the request of Alice. *)
Lemma accept_then_refresh_witness :
  ConnectionStore.connectedUser
    (ConnectionStore.getConnectedUser alice_id ConnectionStore.initial db_connected)
  = Some bob_connected
  ∧ ConnectionStore.connectedUser
      (ConnectionStore.getConnectedUser bob_id ConnectionStore.initial db_connected)
    = Some alice_connected.
Proof.
  destruct (accept_then_refresh db_requested request_id alice_id bob_id request_r1
              (User.set_status CONNECTION_STATES.PENDING alice)
              (User.set_status CONNECTION_STATES.PENDING bob)
              ConnectionStore.initial ConnectionStore.initial)
    as (_ & Ha & _ & Hb & _);
    [vm_compute; reflexivity | reflexivity | reflexivity | reflexivity
    | discriminate | discriminate | discriminate
    | vm_compute; reflexivity | vm_compute; reflexivity |].
  split; [exact Ha | exact Hb].
Defined.

(** X10 for a retry after the session has ended. *)
Lemma retryFailedMessage_removes_failed_witness :
  messages (retryFailedMessage "temp-1000" clock None (Some bob_connected)
              window_failed device0 db_chat).1.1 = [].
Proof.
  destruct (retryFailedMessage_removes_failed "temp-1000" clock None (Some bob_connected)
              window_failed device0 db_chat
              (mkLocal (Message.mk "temp-1000" alice_id bob_id "hello" None 1001) (Some failed)))
    as [_ H]; [reflexivity | reflexivity |].
  destruct H as (H & _); [by left|].
  rewrite H. vm_compute. reflexivity.
Defined.

(** X13 for a first message of Alice to Bob, typed offline. *)
Lemma offline_message_is_delivered_by_drain_witness :
  let sent := MessageStore.sendMessage "hello" clock (Some alice_connected)
                (Some bob_connected) chat_offline device0 db_chat in
  let drained := MessageStoreActions.processOfflineQueue clock (Some alice_connected)
                   sent.1.2 sent.2 in
  localStorage sent.1.2 = Some [mkEntry bob_id "hello" 1000]
  ∧ Backend.messages drained.2 !! "m1" = Some (Message.mk "m1" alice_id bob_id "hello" None 1000).
Proof.
  destruct (offline_message_is_delivered_by_drain alice_connected bob_connected
              alice_connected bob_connected "hello" clock clock chat_offline device0
              db_chat "m1" [Some "m2"])
    as (_ & Hq & _ & _ & Hrow & _);
    [reflexivity | discriminate | discriminate | discriminate | discriminate
    | vm_compute; lia | reflexivity
    | vm_compute; reflexivity | vm_compute; reflexivity | reflexivity
    | vm_compute; reflexivity |].
  split; [exact Hq | exact Hrow].
Defined.

(** X19 for the second page of a conversation of 45 messages. *)
Lemma loadMoreMessages_appends_next_page_witness :
  let s' := (loadMoreMessages_fetching alice_id bob_id window_one_page device0 db_history).1 in
  messages s' = of_row <$> newest_first 6 40 ∧ currentPage s' = 1.
Proof.
  destruct (loadMoreMessages_appends_next_page alice_id bob_id 0 window_one_page device0 db_history)
    as (Hm & Hp & _);
    [reflexivity | reflexivity | reflexivity | vm_compute; reflexivity
    | vm_compute; lia |].
  split; [|exact Hp].
  cbv zeta. rewrite Hm. vm_compute. reflexivity.
Defined.

End MoreRuns.
